(** * cord19q ETL: a shallow embedding of [src/python/cord19q/etl.py]

    The module [Etl] turns a metadata table (one row per paper) and one
    JSON body file per paper into two tables, [articles] and [sections].
    This file embeds the transformation in Rocq and proves the properties
    the specification states about it.

    Modelling conventions.
    - A Python [str] is a [string]: the bytes of its UTF-8 encoding, a lone
      surrogate code point U+D800..U+DFFF being written as the three bytes
      ED A0..BF 80..BF.  String methods are written out for ASCII text;
      where the Unicode database decides ([isdigit] and [int] on text with
      characters beyond ASCII) the answer is a parameter.
    - A Python exception is a value of [exn]; code that can raise returns
      [py A], and [try ... except Exception] is [try_except].
    - What the module calls but does not define is gathered in the class
      [Environment]: the sentence tokenizer, the date parser, SHA-1, and
      the contents of the input directory.
    - Writes to standard output are not modelled. *)

From Stdlib Require Import ZArith Ascii String.
From stdpp Require Import gmap strings list.

Open Scope Z_scope.

(** ** Python exceptions *)

Inductive exn : Type :=
  | KeyError | TypeError | ValueError | IndexError
  | FileNotFoundError | JSONDecodeError | ParserError
  | OperationalError | ProgrammingError | IntegrityError
  | UnicodeEncodeError | OverflowError.

Inductive py (A : Type) : Type :=
  | Ok (a : A)
  | Raise (e : exn).
Arguments Ok {A} a.
Arguments Raise {A} e.

(** Sequencing: an exception raised by the first computation propagates.
    With these instances [x ← m; k] is stdpp's notation for it. *)
#[global] Instance py_ret : MRet py := fun A a => Ok a.
#[global] Instance py_bind : MBind py := fun A B k m =>
  match m with
  | Ok a => k a
  | Raise e => Raise e
  end.
#[global] Instance py_fmap : FMap py := fun A B f m =>
  match m with
  | Ok a => Ok (f a)
  | Raise e => Raise e
  end.

(** [try: body except Exception: handler] *)
Definition try_except {A} (body : py A) (handler : exn -> py A) : py A :=
  match body with
  | Ok a => Ok a
  | Raise e => handler e
  end.

(** ** Python strings *)

Module Str.

(** [s.startswith(p)] *)
Fixpoint startswith (s p : string) {struct p} : bool :=
  match p, s with
  | EmptyString, _ => true
  | String a p', String b s' => if decide (a = b) then startswith s' p' else false
  | String _ _, EmptyString => false
  end.

(** [x in s] for two strings *)
Fixpoint contains (x s : string) : bool :=
  startswith s x ||
  match s with
  | EmptyString => false
  | String _ s' => contains x s'
  end.

Definition is_upper (c : ascii) : bool :=
  let n := N_of_ascii c in ((65 <=? n) && (n <=? 90))%N.

Definition is_digit (c : ascii) : bool :=
  let n := N_of_ascii c in ((48 <=? n) && (n <=? 57))%N.

Definition lower_char (c : ascii) : ascii :=
  if is_upper c then ascii_of_N (N_of_ascii c + 32) else c.

(** [s.lower()], on the ASCII letters.  For the test [x in s.lower()] with
    an ASCII [x] made of the letters of the keywords this is all that
    matters: beyond ASCII only U+0130 and U+212A have an ASCII letter in
    their lower-case form, an i followed by U+0307 and a k, and no keyword
    has a k or an i that is not followed by an ASCII character. *)
Fixpoint lower (s : string) : string :=
  match s with
  | EmptyString => EmptyString
  | String c s' => String (lower_char c) (lower s')
  end.

Fixpoint all_digits (s : string) : bool :=
  match s with
  | EmptyString => true
  | String c s' => is_digit c && all_digits s'
  end.

(** Every character is an ASCII character. *)
Fixpoint is_ascii (s : string) : bool :=
  match s with
  | EmptyString => true
  | String c s' => (N_of_ascii c <? 128)%N && is_ascii s'
  end.

(** [s.isdigit()].  ASCII text: at least one character and digits only.
    Text with characters beyond ASCII: as the Unicode database has it,
    which [beyond_ascii] stands for. *)
Definition isdigit (beyond_ascii : string -> bool) (s : string) : bool :=
  if is_ascii s then
    match s with
    | EmptyString => false
    | _ => all_digits s
    end
  else beyond_ascii s.

(** A byte that continues a character begun before it. *)
Definition is_continuation (c : ascii) : bool :=
  let n := N_of_ascii c in ((128 <=? n) && (n <? 192))%N.

(** [len(s)]: the number of characters, one for every byte that does not
    continue one. *)
Fixpoint len (s : string) : Z :=
  match s with
  | EmptyString => 0
  | String c s' => (if is_continuation c then 0 else 1) + len s'
  end.

(** truth value of a string: [if s] *)
Definition truthy (s : string) : bool :=
  match s with
  | EmptyString => false
  | _ => true
  end.

(** Puts a character in front of the first piece of a split. *)
Definition cons_first (c : ascii) (l : list string) : list string :=
  match l with
  | [] => [String c EmptyString]
  | h :: t => String c h :: t
  end.

(** [s.split("; ")]: the pieces between the non-overlapping occurrences
    of the separator, scanned from the left. *)
Fixpoint split_semi (s : string) : list string :=
  match s with
  | EmptyString => [EmptyString]
  | String c rest =>
      match rest with
      | String d rest' =>
          if decide (c = ";"%char /\ d = " "%char)
          then EmptyString :: split_semi rest'
          else cons_first c (split_semi rest)
      | EmptyString => [String c EmptyString]
      end
  end.

(** ["; ".join(l)] *)
Fixpoint join_semi (l : list string) : string :=
  match l with
  | [] => ""
  | [h] => h
  | h :: t => h +:+ "; " +:+ join_semi t
  end.

(** True when the string holds an encoded surrogate code point, which
    UTF-8 cannot carry: [s.encode("utf-8")] raises on such a string. *)
Fixpoint has_surrogate (s : string) : bool :=
  match s with
  | EmptyString => false
  | String c rest =>
      match rest with
      | String d _ =>
          ((N_of_ascii c =? 237) && (160 <=? N_of_ascii d) && (N_of_ascii d <=? 191))%N
          || has_surrogate rest
      | EmptyString => false
      end
  end.

(** [s * n] *)
Fixpoint repeat (s : string) (n : nat) : string :=
  match n with
  | O => EmptyString
  | S n' => s +:+ repeat s n'
  end.

(** The first [n] characters of [s]. *)
Fixpoint take (n : nat) (s : string) : string :=
  match n, s with
  | S n', String c s' => String c (take n' s')
  | _, _ => EmptyString
  end.

(** [s[:-2]]: [s] without its last two characters, empty when [s] has
    fewer than two. *)
Definition drop_last2 (s : string) : string :=
  take (String.length s - 2) s.

(** [sep.join(l)] *)
Fixpoint join (sep : string) (l : list string) : string :=
  match l with
  | [] => EmptyString
  | [h] => h
  | h :: t => h +:+ sep +:+ join sep t
  end.

(** The number of times the character [c] occurs in [s]. *)
Fixpoint count_char (c : ascii) (s : string) : nat :=
  match s with
  | EmptyString => O
  | String d s' => (if decide (c = d) then 1 else 0) + count_char c s'
  end.

End Str.

(** ** [os.path.join] on POSIX *)

Module Path.

Fixpoint endswith_sep (s : string) : bool :=
  match s with
  | EmptyString => false
  | String c EmptyString => bool_decide (c = "/"%char)
  | String _ s' => endswith_sep s'
  end.

(** One step of [posixpath.join]: an absolute component restarts the
    path, a separator is added unless the path is empty or has one. *)
Definition join2 (path b : string) : string :=
  if Str.startswith b "/" then b
  else if negb (Str.truthy path) || endswith_sep path then path +:+ b
  else path +:+ "/" +:+ b.

Definition join (a : string) (p : list string) : string :=
  fold_left join2 p a.

End Path.


(** ** JSON documents, as [json.load] returns them

    An object is the Python [dict] it was loaded into: its keys are
    distinct and keep their order.  Numbers are integers here: the module
    treats every number alike. *)

#[local] Set Warnings "-register-all".
Inductive json : Type :=
  | JNull
  | JBool (b : bool)
  | JNum (n : Z)
  | JStr (s : string)
  | JArr (l : list json)
  | JObj (kv : list (string * json)).

Module Json.

Fixpoint assoc (k : string) (kv : list (string * json)) : option json :=
  match kv with
  | [] => None
  | (k', v) :: rest => if decide (k' = k) then Some v else assoc k rest
  end.

(** [j[k]] with a string key: only a dict can be indexed by one. *)
Definition getitem (j : json) (k : string) : py json :=
  match j with
  | JObj kv =>
      match assoc k kv with
      | Some v => Ok v
      | None => Raise KeyError
      end
  | _ => Raise TypeError
  end.

(** [for x in j]: the items the loop visits.  A list yields its
    elements, a dict its keys, a string its characters. *)
Definition iter (j : json) : py (list json) :=
  match j with
  | JArr l => Ok l
  | JObj kv => Ok (map (fun p => JStr (fst p)) kv)
  | JStr s => Ok (map (fun c => JStr (String c EmptyString)) (list_ascii_of_string s))
  | _ => Raise TypeError
  end.

Definition is_str (m : string) (j : json) : bool :=
  match j with
  | JStr s => bool_decide (s = m)
  | _ => false
  end.

(** [m in j] for a string [m]: substring test on a string, membership
    on a list, key test on a dict; other values are not containers. *)
Definition contains (m : string) (j : json) : py bool :=
  match j with
  | JStr s => Ok (Str.contains m s)
  | JArr l => Ok (existsb (is_str m) l)
  | JObj kv => Ok (existsb (fun p => bool_decide (fst p = m)) kv)
  | _ => Raise TypeError
  end.

End Json.

(** What [open(path)] followed by [json.load] gives for a path. *)
Inductive file : Type :=
  | NoFile                 (* [open] raises *)
  | BadJson                (* [json.load] raises *)
  | Json (data : json).

(** ** Row values *)

Record datetime : Type := mkDate {
  year : Z; month : Z; day : Z; hour : Z; minute : Z; second : Z
}.

#[global] Instance datetime_eq_dec : EqDecision datetime.
Proof. solve_decision. Defined.

(** The Python values the module puts in a row tuple. *)
Inductive value : Type :=
  | VNone
  | VInt (n : Z)
  | VStr (s : string)
  | VDate (d : datetime).

#[global] Instance value_eq_dec : EqDecision value.
Proof. solve_decision. Defined.

Module Value.

(** truth value: [if value] *)
Definition truthy (v : value) : bool :=
  match v with
  | VNone => false
  | VInt n => negb (n =? 0)
  | VStr s => Str.truthy s
  | VDate _ => true
  end.

Definition is_space (c : ascii) : bool :=
  let n := N_of_ascii c in (((9 <=? n) && (n <=? 13)) || (n =? 32))%N.

Fixpoint all_space (s : string) : bool :=
  match s with
  | EmptyString => true
  | String c s' => is_space c && all_space s'
  end.

Fixpoint lstrip (s : string) : string :=
  match s with
  | EmptyString => EmptyString
  | String c s' => if is_space c then lstrip s' else s
  end.

Definition digit_val (c : ascii) : Z := Z.of_N (N_of_ascii c) - 48.

(** Decimal digits, single underscores allowed between two digits, then
    optional trailing white space.  [prev] tells that the character
    before was a digit. *)
Fixpoint digits (s : string) (acc : Z) (prev : bool) : option Z :=
  match s with
  | EmptyString => if prev then Some acc else None
  | String c s' =>
      if Str.is_digit c then digits s' (10 * acc + digit_val c) true
      else if bool_decide (c = "_"%char) && prev then digits s' acc false
      else if is_space c && prev && all_space s' then Some acc
      else None
  end.

(** [int(s)] for a string of ASCII characters: optional white space
    around an optional sign and decimal digits. *)
Definition int_of_str (s : string) : py Z :=
  let r :=
    match lstrip s with
    | String "-" d => Z.opp <$> digits d 0 false
    | String "+" d => digits d 0 false
    | t => digits t 0 false
    end in
  match r with
  | Some n => Ok n
  | None => Raise ValueError
  end.

(** [int(value)].  On a string with characters beyond ASCII the Unicode
    database decides what is a digit or a space; [beyond_ascii] stands for
    the answer. *)
Definition to_int (beyond_ascii : string -> py Z) (v : value) : py Z :=
  match v with
  | VInt n => Ok n
  | VStr s => if Str.is_ascii s then int_of_str s else beyond_ascii s
  | VNone | VDate _ => Raise TypeError
  end.

End Value.

(** ** The store: SQLite behind [sqlite3]

    A table keeps the schema it was created with and its rows in insertion
    order.  An insert is refused when a parameter cannot be bound (a string
    that is not encodable as UTF-8, an integer beyond 64 bits) or when the
    primary key is already taken; failures of the medium are not modelled.
    Values are compared as they were bound, and a null key is never taken:
    the run binds strings to [articles.Id] and integers to [sections.Id].

    The connection also keeps [executed]: the INSERT statements it was
    asked to execute, refused or not.  It is a history variable, in the
    manner of [set_trace_callback]; no operation reads it. *)

Abbreviation schema := (list (string * string)).

Record table : Type := mkTable {
  columns_of : schema;
  rows : list (list value)
}.

(** An INSERT statement: the table and the parameters bound to it. *)
Abbreviation statement := (string * list value)%type.

Record connection : Type := mkConn {
  tables : gmap string table;
  executed : list statement
}.

Module Sqlite.

Definition is_pk (col : string * string) : bool :=
  Str.contains "PRIMARY KEY" (snd col).

(** Position of the primary-key column. *)
Fixpoint pk_index (s : schema) : option nat :=
  match s with
  | [] => None
  | col :: rest => if is_pk col then Some 0%nat else S <$> pk_index rest
  end.

Definition bind (v : value) : py value :=
  match v with
  | VInt n =>
      if (- 2 ^ 63 <=? n) && (n <? 2 ^ 63) then Ok v else Raise OverflowError
  | VStr s => if Str.has_surrogate s then Raise UnicodeEncodeError else Ok v
  | _ => Ok v
  end.

Fixpoint bind_all (vals : list value) : py (list value) :=
  match vals with
  | [] => Ok []
  | v :: rest => v' ← bind v; rest' ← bind_all rest; Ok (v' :: rest')
  end.

Definition pk_taken (t : table) (vals : list value) : bool :=
  match pk_index (columns_of t) with
  | Some i =>
      match vals !! i with
      | Some VNone | None => false
      | Some v => existsb (fun r => bool_decide (r !! i = Some v)) (rows t)
      end
  | None => false
  end.

(** [sqlite3.connect] on a path where no file exists *)
Definition connect : connection := mkConn ∅ [].

(** [db.execute("CREATE TABLE IF NOT EXISTS name (...)")] *)
Definition create_table (db : connection) (name : string) (s : schema)
    : connection :=
  match tables db !! name with
  | Some _ => db
  | None => mkConn (<[name := mkTable s []]> (tables db)) (executed db)
  end.

(** The effect of an INSERT on the tables. *)
Definition insert_into (tbls : gmap string table) (name : string)
    (columns : list string) (vals : list value) : py (gmap string table) :=
  match tbls !! name with
  | None => Raise OperationalError
  | Some t =>
      if negb (bool_decide (columns = (columns_of t).*1))
      then Raise OperationalError
      else if negb (bool_decide (length vals = length columns))
      then Raise ProgrammingError
      else
        bound ← bind_all vals;
        if pk_taken t bound then Raise IntegrityError
        else Ok (<[name := mkTable (columns_of t) (rows t ++ [bound])]> tbls)
  end.

(** [db.execute("INSERT INTO name (columns) VALUES (?, ...)", vals)]:
    the connection afterwards, and whether the call raised. *)
Definition execute_insert (db : connection) (name : string)
    (columns : list string) (vals : list value) : connection * py unit :=
  let history := executed db ++ [(name, vals)] in
  match insert_into (tables db) name columns vals with
  | Ok tbls => (mkConn tbls history, Ok ())
  | Raise e => (mkConn (tables db) history, Raise e)
  end.

End Sqlite.

(** ** The module [etl.py] *)

(** Articles schema *)
Definition ARTICLES : schema :=
  [("Id", "TEXT PRIMARY KEY"); ("Source", "TEXT"); ("Published", "DATETIME");
   ("Publication", "TEXT"); ("Authors", "TEXT"); ("Title", "TEXT");
   ("Tags", "TEXT"); ("Reference", "TEXT")].

(** Sections schema *)
Definition SECTIONS : schema :=
  [("Id", "INTEGER PRIMARY KEY"); ("Article", "TEXT"); ("Text", "TEXT");
   ("Tags", "TEXT")].

(** A row of [metadata.csv] as [csv.DictReader] yields it: the columns the
    module reads, each a string.  (A line with fewer fields than the header
    would leave some of them [None]; such tables are outside the model.) *)
Record Row : Type := mkRow {
  sha : string;
  title : string;
  publish_time : string;
  source_x : string;
  journal : string;
  authors : string;
  doi : string;
  full_text_file : string
}.

(** What the module imports or reads from the input directory. *)
Class Environment : Type := mkEnv {
  (** [nltk.tokenize.sent_tokenize] on a string *)
  sent_tokenize : string -> list string;
  (** [dateutil.parser.parse] *)
  parse : string -> py datetime;
  (** [hashlib.sha1(s.encode("utf-8")).hexdigest()] *)
  sha1 : string -> string;
  (** the rows of the csv file at a path, if it can be opened *)
  csv_rows : string -> option (list Row);
  (** the JSON file at a path *)
  json_file : string -> file;
  (** [str.isdigit] on a string with characters beyond ASCII *)
  unicode_isdigit : string -> bool;
  (** [int] on a string with characters beyond ASCII *)
  unicode_int : string -> py Z
}.

(** The local variables [Etl.run] carries through its loop. *)
Record state : Type := mkState {
  db : connection;
  aindex : Z;
  sindex : Z;
  ids : gset string
}.

Definition opt_str (o : option string) : value :=
  match o with
  | Some s => VStr s
  | None => VNone
  end.

Definition opt_date (o : option datetime) : value :=
  match o with
  | Some d => VDate d
  | None => VNone
  end.

Module Etl.

Section Run.

Context {env : Environment}.

Definition create (db : connection) (table : schema) (name : string)
    : connection :=
  Sqlite.create_table db name table.

(** The output file is removed before connecting, so the store starts
    empty whatever [output] is. *)
Definition init (output : option string) : connection :=
  let db := Sqlite.connect in
  let db := create db ARTICLES "articles" in
  create db SECTIONS "sections".

(** [table[column]] *)
Fixpoint column_type (table : schema) (column : string) : py string :=
  match table with
  | [] => Raise KeyError
  | (name, ctype) :: rest =>
      if decide (name = column) then Ok ctype else column_type rest column
  end.

(** [row[x]] *)
Definition row_item (row : list value) (x : nat) : py value :=
  match row !! x with
  | Some v => Ok v
  | None => Raise IndexError
  end.

(** The body of the loop in [Etl.values]: one column. *)
Definition convert (ctype : string) (val : value) : py value :=
  if Str.startswith ctype "INTEGER" then
    if Value.truthy val then n ← Value.to_int unicode_int val; Ok (VInt n)
    else Ok (VInt 0)
  else if bool_decide (ctype = "BOOLEAN") then
    Ok (VInt (if bool_decide (val = VStr "TRUE") then 1 else 0))
  else Ok val.

Fixpoint values_from (x : nat) (table : schema) (row : list value)
    (columns : list string) : py (list value) :=
  match columns with
  | [] => Ok []
  | column :: rest =>
      val ← row_item row x;
      ctype ← column_type table column;
      v ← convert ctype val;
      vs ← values_from (S x) table row rest;
      Ok (v :: vs)
  end.

Definition values (table : schema) (row : list value) (columns : list string)
    : py (list value) :=
  values_from 0 table row columns.

(** A row that cannot be converted or stored is reported and left out:
    whatever was raised is dropped. *)
Definition insert (db : connection) (table : schema) (name : string)
    (row : list value) : connection :=
  let columns := table.*1 in
  let '(db, _) :=
    match values table row columns with
    | Ok vals => Sqlite.execute_insert db name columns vals
    | Raise e => (db, Raise e)
    end in
  db.

(** [row["sha"].split("; ") if row["sha"] else None] *)
Definition provided_ids (row : Row) : option (list string) :=
  if Str.truthy (sha row) then Some (Str.split_semi (sha row)) else None.

(** truth value of an optional list: [None] and [[]] are false *)
Definition truthy_ids (uids : option (list string)) : bool :=
  match uids with
  | Some (_ :: _) => true
  | _ => false
  end.

(** Returns the ids of the row and the set of generated ids afterwards. *)
Definition getIds (row : Row) (ids : gset string)
    : option (list string) * gset string :=
  let uids := provided_ids row in
  if negb (truthy_ids uids) then
    let uid := sha1 (title row) in
    if decide (uid ∈ ids) then (None, ids)
    else (Some [uid], {[uid]} ∪ ids)
  else (uids, ids).

Definition getDate (row : Row) : py (option datetime) :=
  let date := publish_time row in
  if Str.truthy date then
    try_except
      (let date :=
         if Str.isdigit unicode_isdigit date && (Str.len date =? 4)
         then date +:+ "-01-01" else date in
       d ← parse date; Ok (Some d))
      (fun _ => Ok None)
  else Ok None.

Definition keywords : list string :=
  ["2019-ncov"; "2019 novel coronavirus"; "coronavirus 2019";
   "coronavirus disease 19"; "covid-19"; "covid 19"; "ncov-2019";
   "sars-cov-2"; "wuhan coronavirus"; "wuhan pneumonia"; "wuhan virus"].

(** [any(x in text.lower() for x in keywords)] *)
Definition has_keyword (text : string) : bool :=
  existsb (fun x => Str.contains x (Str.lower text)) keywords.

Definition getTags (sections : list string) : option string :=
  fold_left
    (fun tags text => if has_keyword text then Some "COVID-19" else tags)
    sections None.

Definition getReference (row : Row) : option string :=
  if Str.truthy (doi row) then Some ("https://doi.org/" +:+ doi row) else None.

Definition marker : string := "COVID-19 resource centre remains active".

(** [sent_tokenize(x)]: the tokenizer works on strings only. *)
Definition tokenize (text : json) : py (list string) :=
  match text with
  | JStr s => Ok (sent_tokenize s)
  | _ => Raise TypeError
  end.

(** The loop over [data["body_text"]].  [sections] grows block by block,
    so what was added before an exception stays. *)
Fixpoint read_blocks (blocks : list json) (sections : list string)
    : list string * py unit :=
  match blocks with
  | [] => (sections, Ok ())
  | section :: rest =>
      match
        (text ← Json.getitem section "text";
         boilerplate ← Json.contains marker text;
         if negb boilerplate then tokenize text else Ok [])
      with
      | Ok sentences => read_blocks rest (sections ++ sentences)
      | Raise e => (sections, Raise e)
      end
  end.

(** The body of the [try] in [Etl.read]. *)
Definition read_article (article : string) (sections : list string)
    : list string * py unit :=
  match json_file article with
  | NoFile => (sections, Raise FileNotFoundError)
  | BadJson => (sections, Raise JSONDecodeError)
  | Json data =>
      match (body ← Json.getitem data "body_text"; Json.iter body) with
      | Ok blocks => read_blocks blocks sections
      | Raise e => (sections, Raise e)
      end
  end.

Definition article_path (directory subset uid : string) : string :=
  Path.join directory [subset; subset; uid +:+ ".json"].

Definition read (directory : string) (row : Row) : list string :=
  let uids := provided_ids row in
  let subset := full_text_file row in
  if truthy_ids uids && Str.truthy subset then
    fold_left
      (fun sections uid =>
         (* except Exception: reported, on to the next id *)
         fst (read_article (article_path directory subset uid) sections))
      (default [] uids) []
  else [].

(** [uids[0]] *)
Definition first_id (uids : list string) : py string :=
  match uids !! 0%nat with
  | Some uid => Ok uid
  | None => Raise IndexError
  end.

Definition article_row (uid : string) (row : Row) (date : option datetime)
    (tags : option string) : list value :=
  [VStr uid; VStr (source_x row); opt_date date; VStr (journal row);
   VStr (authors row); VStr (title row); opt_str tags;
   opt_str (getReference row)].

Definition section_row (sindex : Z) (uid text : string) (tags : option string)
    : list value :=
  [VInt sindex; VStr uid; VStr text; opt_str tags].

(** [for text in sections: insert ...; sindex += 1] *)
Fixpoint add_sections (db : connection) (sindex : Z) (uid : string)
    (tags : option string) (sections : list string) : connection * Z :=
  match sections with
  | [] => (db, sindex)
  | text :: rest =>
      let db := insert db SECTIONS "sections" (section_row sindex uid text tags) in
      add_sections db (sindex + 1) uid tags rest
  end.

(** The body of the loop over the metadata rows. *)
Definition process (directory : string) (st : state) (row : Row) : py state :=
  let '(uids, ids) := getIds row (ids st) in
  if truthy_ids uids then
    let uids := default [] uids in
    date ← getDate row;
    let sections := title row :: read directory row in
    let tags := getTags sections in
    uid ← first_id uids;
    let db := insert (db st) ARTICLES "articles" (article_row uid row date tags) in
    let aindex := aindex st + 1 in
    let '(db, sindex) := add_sections db (sindex st) uid tags sections in
    Ok (mkState db aindex sindex ids)
  else Ok (mkState (db st) (aindex st) (sindex st) ids).

Fixpoint process_all (directory : string) (st : state) (rows : list Row)
    : py state :=
  match rows with
  | [] => Ok st
  | row :: rest => st' ← process directory st row; process_all directory st' rest
  end.

Definition run (directory : string) (output : option string) : py state :=
  let db := init output in
  match csv_rows (Path.join directory ["metadata.csv"]) with
  | None => Raise FileNotFoundError
  | Some rows => process_all directory (mkState db 0 0 ∅) rows
  end.

(** [("?, " * len(columns))[:-2]] *)
Definition placeholders (columns : list string) : string :=
  Str.drop_last2 (Str.repeat "?, " (length columns)).

(** The text of the statement [Etl.insert] executes:
    [INSERT_ROW.format(table=name, columns=", ".join(columns), values=...)]. *)
Definition insert_statement (table : schema) (name : string) : string :=
  let columns := table.*1 in
  "INSERT INTO " +:+ name +:+ " (" +:+ Str.join ", " columns +:+ ") VALUES ("
    +:+ placeholders columns +:+ ")".

End Run.

End Etl.

(** ** Reading the result *)

(** The rows of a table of the store, in insertion order. *)
Definition stored (d : connection) (name : string) : list (list value) :=
  match tables d !! name with
  | Some t => rows t
  | None => []
  end.

(** The rows that a list of statements binds to a table. *)
Definition rows_for (name : string) (l : list statement) : list (list value) :=
  (filter (fun s : statement => s.1 = name) l).*2.

(** The rows the run handed to the store for a table, in order, whether
    they were accepted or refused. *)
Definition submitted (d : connection) (name : string) : list (list value) :=
  rows_for name (executed d).

(** The value of a row in the column at a position. *)
Definition column (i : nat) (row : list value) : value :=
  default VNone (row !! i).

(** The store can bind every value of the row. *)
Definition binds (row : list value) : bool :=
  match Sqlite.bind_all row with
  | Ok _ => true
  | Raise _ => false
  end.

(** Ids of the stored section rows, in insertion order. *)
Definition section_ids (d : connection) : list value :=
  column 0 <$> stored d "sections".

(** The tables after an INSERT that the store may refuse. *)
Definition after_insert (tbls : gmap string table) (name : string)
    (columns : list string) (vals : list value) : gmap string table :=
  match Sqlite.insert_into tbls name columns vals with
  | Ok tbls' => tbls'
  | Raise _ => tbls
  end.

(** ** Notions of the specification *)

(** A list of ids that counts up from [start] one by one. *)
Definition contiguous_from (start : Z) (l : list value) : Prop :=
  l = VInt <$> seqZ start (Z.of_nat (length l)).

(** A list of ids in which a later id is greater than an earlier one. *)
Definition increasing (l : list value) : Prop :=
  forall i j a b, (i < j)%nat ->
    l !! i = Some (VInt a) -> l !! j = Some (VInt b) -> a < b.

(** [u] occurs in [text] up to the case of letters. *)
Definition occurs_ignoring_case (k text : string) : Prop :=
  exists a u b, text = a +:+ u +:+ b /\ Str.lower u = k.

(** The conversion of one value for a column of a declared type, as the
    specification words it: integer columns are parsed, empty or null
    giving 0; boolean columns give 1 for the literal TRUE and 0 for
    anything else; every other value passes through. *)
Inductive coerced {env : Environment} (ctype : string) (val : value)
    : value -> Prop :=
  | coerced_integer_empty :
      Str.startswith ctype "INTEGER" = true -> Value.truthy val = false ->
      coerced ctype val (VInt 0)
  | coerced_integer_parse n :
      Str.startswith ctype "INTEGER" = true -> Value.truthy val = true ->
      Value.to_int unicode_int val = Ok n ->
      coerced ctype val (VInt n)
  | coerced_boolean_true :
      ctype = "BOOLEAN" -> val = VStr "TRUE" -> coerced ctype val (VInt 1)
  | coerced_boolean_false :
      ctype = "BOOLEAN" -> val <> VStr "TRUE" -> coerced ctype val (VInt 0)
  | coerced_other :
      Str.startswith ctype "INTEGER" = false -> ctype <> "BOOLEAN" ->
      coerced ctype val val.

(** The text of a body-text block of the expected shape: an object with a
    string under the key text. *)
Definition block_text (block : json) : option string :=
  match block with
  | JObj kv =>
      match Json.assoc "text" kv with
      | Some (JStr t) => Some t
      | _ => None
      end
  | _ => None
  end.

(** What a block with the given text contributes, as the specification
    words it: nothing when the text holds the boilerplate marker, its
    sentences otherwise. *)
Definition fragments `{Environment} (text : string) : list string :=
  if Str.contains Etl.marker text then [] else sent_tokenize text.

(** The free-text columns of a row hold text that UTF-8 can carry, as
    every string read from a csv file does. *)
Definition encodable_row (r : Row) : Prop :=
  Str.has_surrogate (source_x r) = false /\
  Str.has_surrogate (journal r) = false /\
  Str.has_surrogate (authors r) = false /\
  Str.has_surrogate (doi r) = false.

(** ** One document and the statements of a run *)

(** The fragments of a document, title first, and the tags computed from
    them: the values [sections] and [tags] of the loop body. *)
Definition sections_of `{Environment} (directory : string) (row : Row)
    : list string :=
  title row :: Etl.read directory row.

Definition tags_of `{Environment} (directory : string) (row : Row)
    : option string :=
  Etl.getTags (sections_of directory row).

(** The state after the loop body has handled a row whose first id is
    [uid], parsed date [date], leaving the generated ids [ids']. *)
Definition document `{Environment} (directory : string) (st : state)
    (row : Row) (uid : string) (date : option datetime) (ids' : gset string)
    : state :=
  let sections := title row :: Etl.read directory row in
  let tags := Etl.getTags sections in
  let a := Etl.article_row uid row date tags in
  let r := Etl.add_sections (Etl.insert (db st) ARTICLES "articles" a)
             (sindex st) uid tags sections in
  mkState r.1 (aindex st + 1) r.2 ids'.

(** The section rows of one document, numbered from [k]. *)
Fixpoint section_rows (k : Z) (uid : string) (tags : option string)
    (sections : list string) : list (list value) :=
  match sections with
  | [] => []
  | text :: rest =>
      Etl.section_row k uid text tags :: section_rows (k + 1) uid tags rest
  end.

(** The statements of one document: its article row, then its section
    rows. *)
Definition document_statements (a : list value) (secs : list (list value))
    : list statement :=
  ("articles", a) :: (pair "sections" <$> secs).

(** Statement lists made of the statements of documents of the metadata
    rows, one document after the other. *)
Inductive documents `{Environment} (directory : string) (metadata : list Row)
    : list statement -> Prop :=
  | documents_nil : documents directory metadata []
  | documents_snoc done row uid date k :
      documents directory metadata done ->
      row ∈ metadata ->
      documents directory metadata
        (done ++ document_statements
           (Etl.article_row uid row date (tags_of directory row))
           (section_rows k uid (tags_of directory row)
              (sections_of directory row))).

(** What holds of the state between two rows of the loop. *)
Record consistent (st : state) : Prop := mkConsistent {
  consistent_articles :
    exists t, tables (db st) !! "articles" = Some t /\ columns_of t = ARTICLES;
  consistent_sections :
    exists t, tables (db st) !! "sections" = Some t /\ columns_of t = SECTIONS;
  consistent_ids :
    column 0 <$> submitted (db st) "sections" = VInt <$> seqZ 0 (sindex st);
  consistent_stored :
    stored (db st) "sections" = filter binds (submitted (db st) "sections");
  consistent_sindex : 0 <= sindex st
}.

(** ** Example inputs *)

(** A date parser that reads the form YYYY-MM-DD and nothing else. *)
Definition iso_parse (s : string) : py datetime :=
  match list_ascii_of_string s with
  | [y1; y2; y3; y4; h1; m1; m2; h2; d1; d2] =>
      if forallb Str.is_digit [y1; y2; y3; y4; m1; m2; d1; d2]
         && bool_decide (h1 = "-"%char) && bool_decide (h2 = "-"%char)
      then
        let num := foldl (fun acc c => 10 * acc + Value.digit_val c) 0 in
        Ok (mkDate (num [y1; y2; y3; y4]) (num [m1; m2]) (num [d1; d2]) 0 0 0)
      else Raise ParserError
  | _ => Raise ParserError
  end.

(** A tokenizer that takes every text for one sentence. *)
Definition one_sentence (s : string) : list string := [s].

(** An input directory without files. *)
Definition empty_env : Environment :=
  mkEnv one_sentence iso_parse (fun s => s) (fun _ => None) (fun _ => NoFile)
    (fun _ => false) (fun _ => Raise ValueError).

Definition row_2020 : Row := mkRow "" "A title" "2020" "" "" "" "" "".
Definition row_not_a_date : Row := mkRow "" "A title" "not-a-date" "" "" "" "" "".
Definition row_undated : Row := mkRow "" "A title" "" "" "" "" "" "".

(** The input directory of the end-to-end example: one paper with the
    body Hello world. *)
Definition row_hello : Row := mkRow "abc" "T" "2020" "" "" "" "" "S".

Definition hello_body : json :=
  JObj [("body_text", JArr [JObj [("text", JStr "Hello world.")]])].

Definition env_hello : Environment :=
  mkEnv one_sentence iso_parse (fun s => s)
    (fun path => if decide (path = "/in/metadata.csv") then Some [row_hello] else None)
    (fun path => if decide (path = "/in/S/S/abc.json") then Json hello_body
                 else NoFile)
    (fun _ => false) (fun _ => Raise ValueError).

(** A text with a lone surrogate, U+D800, as JSON can escape it. *)
Definition lone_surrogate : string :=
  String (ascii_of_N 237) (String (ascii_of_N 160) (String (ascii_of_N 128) "")).

(** An input directory [/in] with one paper whose body has two blocks,
    the first of them a text that UTF-8 cannot carry. *)
Definition row_abc : Row := mkRow "abc" "T" "" "" "" "" "" "S".

Definition unencodable_body : json :=
  JObj [("body_text",
         JArr [JObj [("text", JStr lone_surrogate)];
               JObj [("text", JStr "Fine.")]])].

Definition env_unencodable : Environment :=
  mkEnv one_sentence iso_parse (fun s => s)
    (fun path => if decide (path = "/in/metadata.csv") then Some [row_abc] else None)
    (fun path => if decide (path = "/in/S/S/abc.json") then Json unencodable_body
                 else NoFile)
    (fun _ => false) (fun _ => Raise ValueError).

(** A body whose second block is the boilerplate notice. *)
Definition notice_blocks : list json :=
  [JObj [("text", JStr "Intro.")];
   JObj [("text", JStr "The COVID-19 resource centre remains active.")];
   JObj [("text", JStr "End.")]].

Definition env_notice : Environment :=
  mkEnv one_sentence iso_parse (fun s => s) (fun _ => None)
    (fun path => if decide (path = "/in/S/S/abc.json")
                 then Json (JObj [("body_text", JArr notice_blocks)])
                 else NoFile)
    (fun _ => false) (fun _ => Raise ValueError).

(** Two rows without sha and with the same title. *)
Definition row_first : Row := mkRow "" "Same title" "" "" "" "" "" "".
Definition row_second : Row := mkRow "" "Same title" "2021" "x" "" "" "" "".

(** The state [Etl.run] starts its loop in. *)
Definition initial_state : state :=
  mkState (Etl.init None) 0 0 ∅.

(** ** Further notions *)

(** The identifier of the document of a row: the first id of its sha
    field, or the hash of its title when the field is empty. *)
Definition article_id `{Environment} (row : Row) : string :=
  match Etl.provided_ids row with
  | Some (uid :: _) => uid
  | _ => sha1 (title row)
  end.

(** The fragments the body file of one id contributes. *)
Definition file_fragments `{Environment} (directory subset uid : string)
    : list string :=
  (Etl.read_article (Etl.article_path directory subset uid) []).1.

(** A column that [Etl.values] leaves alone. *)
Definition plain_column (col : string * string) : Prop :=
  Str.startswith col.2 "INTEGER" = false /\ col.2 <> "BOOLEAN".

(** A row with two ids in its sha field. *)
Definition row_two_ids : Row := mkRow "missing; abc" "T" "" "" "" "" "" "S".

(** The metadata table of [env_hello] with the same row twice. *)
Definition env_twice : Environment :=
  mkEnv one_sentence iso_parse (fun s => s)
    (fun path => if decide (path = "/in/metadata.csv")
                 then Some [row_hello; row_hello] else None)
    (fun path => if decide (path = "/in/S/S/abc.json") then Json hello_body
                 else NoFile)
    (fun _ => false) (fun _ => Raise ValueError).

(** A metadata table with two rows of the same title and no sha, and the
    paper of [env_hello]. *)
Definition env_titles : Environment :=
  mkEnv one_sentence iso_parse (fun s => s)
    (fun path => if decide (path = "/in/metadata.csv")
                 then Some [row_first; row_second; row_hello] else None)
    (fun path => if decide (path = "/in/S/S/abc.json") then Json hello_body
                 else NoFile)
    (fun _ => false) (fun _ => Raise ValueError).

(** A body file with an object where the list of blocks should be. *)
Definition body_without_list : json :=
  JObj [("body_text", JObj [("text", JStr "Hello world.")])].

Definition env_without_list : Environment :=
  mkEnv one_sentence iso_parse (fun s => s) (fun _ => None)
    (fun path => if decide (path = "/in/S/S/abc.json")
                 then Json body_without_list else NoFile)
    (fun _ => false) (fun _ => Raise ValueError).

(** The article row of [row_hello] in [env_hello], and nine values to bind
    to the eight columns of the articles table. *)
Definition article_hello : list value :=
  [VStr "abc"; VStr ""; VDate (mkDate 2020 1 1 0 0 0); VStr ""; VStr "";
   VStr "T"; VNone; VNone].

Definition nine_values : list value :=
  [VStr "id"; VInt 7; VNone; VStr "TRUE"; VStr ""; VStr "t"; VNone; VNone;
   VStr "beyond"].

(** * Properties *)

(** ** Strings *)

Lemma str_app_nil_l (s : string) : "" +:+ s = s.
Proof. reflexivity. Qed.

Lemma str_app_cons (c : ascii) (a b : string) :
  String c a +:+ b = String c (a +:+ b).
Proof. reflexivity. Qed.

Lemma str_app_nil_r (s : string) : s +:+ "" = s.
Proof. induction s as [|c s IH]; [done|]. by rewrite str_app_cons, IH. Qed.

Lemma str_app_assoc (a b c : string) : (a +:+ b) +:+ c = a +:+ b +:+ c.
Proof. induction a as [|x a IH]; [done|]. by rewrite !str_app_cons, IH. Qed.

Lemma startswith_spec (s p : string) :
  Str.startswith s p = true <-> exists b, s = p +:+ b.
Proof.
  revert s. induction p as [|a p IH]; intros s; simpl.
  - split; [intros _; by exists s | done].
  - destruct s as [|b s].
    { split; [done|]. intros [t Ht]. rewrite str_app_cons in Ht. discriminate. }
    destruct (decide (a = b)) as [->|Hne].
    + rewrite IH. split; intros [t Ht]; exists t.
      * by rewrite str_app_cons, Ht.
      * rewrite str_app_cons in Ht. by injection Ht.
    + split; [done|]. intros [t Ht]. rewrite str_app_cons in Ht. congruence.
Qed.

Lemma contains_spec (x s : string) :
  Str.contains x s = true <-> exists a b, s = a +:+ x +:+ b.
Proof.
  induction s as [|c s IH].
  - simpl. rewrite orb_false_r, startswith_spec. split.
    + intros [b Hb]. by exists "", b.
    + intros [a [b Hab]]. destruct a; [by exists b|].
      rewrite str_app_cons in Hab. discriminate.
  - cbn [Str.contains]. rewrite orb_true_iff, startswith_spec, IH. split.
    + intros [[b Hb]|[a [b Hab]]].
      * by exists "", b.
      * exists (String c a), b. by rewrite str_app_cons, Hab.
    + intros [a [b Hab]]. destruct a as [|d a].
      * left. by exists b.
      * right. rewrite str_app_cons in Hab. injection Hab as _ Hs. by exists a, b.
Qed.

Lemma lower_app (a b : string) :
  Str.lower (a +:+ b) = Str.lower a +:+ Str.lower b.
Proof. induction a as [|c a IH]; [done|]. by rewrite str_app_cons; simpl; rewrite IH. Qed.

Lemma lower_split (s a b : string) :
  Str.lower s = a +:+ b ->
  exists a' b', s = a' +:+ b' /\ Str.lower a' = a /\ Str.lower b' = b.
Proof.
  revert s. induction a as [|c a IH]; intros s Hs.
  - exists "", s. by rewrite !str_app_nil_l in *.
  - destruct s as [|d s]; [done|]. rewrite str_app_cons in Hs. simpl in Hs.
    injection Hs as Hc Hs. destruct (IH s Hs) as (a' & b' & -> & <- & <-).
    exists (String d a'), b'. by rewrite str_app_cons; simpl; rewrite Hc.
Qed.

(** A keyword occurs in the lowered text exactly when it occurs in the
    text up to case. *)
Lemma contains_lower (k text : string) :
  Str.contains k (Str.lower text) = true <-> occurs_ignoring_case k text.
Proof.
  rewrite contains_spec. split.
  - intros (a & b & Hab).
    destruct (lower_split _ _ _ Hab) as (a' & r & -> & <- & Hr).
    destruct (lower_split _ _ _ Hr) as (u & b' & -> & <- & <-).
    by exists a', u, b'.
  - intros (a & u & b & -> & <-). exists (Str.lower a), (Str.lower b).
    by rewrite !lower_app.
Qed.

(** Induction that follows [Str.split_semi]: two characters at a time. *)
Lemma string_pair_ind (P : string -> Prop) :
  P "" ->
  (forall c, P (String c "")) ->
  (forall c d s, P s -> P (String d s) -> P (String c (String d s))) ->
  forall s, P s.
Proof.
  intros Hnil Hone Hstep s.
  cut (P s /\ forall c, P (String c s)); [tauto|].
  induction s as [|d s [IH1 IH2]]; [by split|].
  split; [apply IH2|]. intros c. by apply Hstep.
Qed.

Lemma split_semi_eq (c d : ascii) (s : string) :
  Str.split_semi (String c (String d s)) =
  if decide (c = ";"%char /\ d = " "%char) then "" :: Str.split_semi s
  else Str.cons_first c (Str.split_semi (String d s)).
Proof. reflexivity. Qed.

Lemma split_semi_nonempty (s : string) : Str.split_semi s <> [].
Proof.
  destruct s as [|c [|d s]]; [done|done|]. rewrite split_semi_eq.
  case_decide; [done|]. unfold Str.cons_first.
  by destruct (Str.split_semi (String d s)).
Qed.

Lemma join_semi_cons (h : string) (t : list string) :
  t <> [] -> Str.join_semi (h :: t) = h +:+ "; " +:+ Str.join_semi t.
Proof. by destruct t. Qed.

Lemma join_cons_first (c : ascii) (l : list string) :
  l <> [] -> Str.join_semi (Str.cons_first c l) = String c (Str.join_semi l).
Proof. destruct l as [|h [|h' t]]; [done| done |]. intros _. reflexivity. Qed.

(** Splitting loses nothing: joining the pieces gives the field back. *)
Lemma join_split_semi (s : string) : Str.join_semi (Str.split_semi s) = s.
Proof.
  induction s as [|c|c d s IH1 IH2] using string_pair_ind; [done|done|].
  rewrite split_semi_eq. case_decide as Hsep.
  - destruct Hsep as [-> ->]. rewrite join_semi_cons by apply split_semi_nonempty.
    by rewrite IH1.
  - rewrite join_cons_first by apply split_semi_nonempty. by rewrite IH2.
Qed.

(** The first piece stops before the first separator. *)
Lemma split_semi_first_clean (s h : string) (t : list string) :
  Str.split_semi s = h :: t -> Str.contains "; " h = false.
Proof.
  revert h t.
  induction s as [|c|c d s _ IH] using string_pair_ind; intros h t.
  - intros [= <- <-]. reflexivity.
  - intros [= <- <-]. simpl. by case_decide.
  - rewrite split_semi_eq. case_decide as Hsep.
    + intros [= <- <-]. reflexivity.
    + unfold Str.cons_first.
      destruct (Str.split_semi (String d s)) as [|h' t'] eqn:Hsplit.
      { by destruct (split_semi_nonempty (String d s)). }
      intros [= <- <-]. specialize (IH _ _ eq_refl).
      cbn [Str.contains]. rewrite IH, orb_false_r.
      destruct h' as [|e h'].
      * simpl. by case_decide.
      * assert (e = d) as ->.
        { revert Hsplit. destruct s as [|f s]; [by intros [= -> _]|].
          rewrite split_semi_eq. case_decide as Hs; [done|].
          unfold Str.cons_first.
          destruct (Str.split_semi (String f s)); by intros [= -> _]. }
        simpl. repeat case_decide; try done. by destruct Hsep.
Qed.

(** The primitives on the inputs that tell them apart. *)

Example split_semi_examples :
  Str.split_semi "a; b; c" = ["a"; "b"; "c"] /\
  Str.split_semi "a;; b" = ["a;"; "b"] /\
  Str.split_semi "; ; " = [""; ""; ""] /\
  Str.split_semi "a;" = ["a;"] /\
  Str.split_semi "" = [""].
Proof. repeat split. Qed.

Example path_join_examples :
  Path.join "/data" ["S"; "S"; "abc.json"] = "/data/S/S/abc.json" /\
  Path.join "/data/" ["S"; "S"; "abc.json"] = "/data/S/S/abc.json" /\
  Path.join "" ["S"; "S"; "abc.json"] = "S/S/abc.json" /\
  Path.join "/data" ["/S"; "S"; "abc.json"] = "/S/S/abc.json".
Proof. repeat split. Qed.

Example int_of_str_examples :
  Value.int_of_str " -1_000 " = Ok (-1000) /\
  Value.int_of_str "007" = Ok 7 /\
  Value.int_of_str "" = Raise ValueError /\
  Value.int_of_str "1__0" = Raise ValueError /\
  Value.int_of_str "- 1" = Raise ValueError /\
  Value.int_of_str "12a" = Raise ValueError.
Proof. repeat split. Qed.

Example has_surrogate_examples :
  Str.has_surrogate lone_surrogate = true /\
  Str.has_surrogate "Hello world." = false /\
  Str.len lone_surrogate = 1 /\
  Str.isdigit (fun _ => false) "2020" = true /\
  Str.isdigit (fun _ => false) "" = false.
Proof. repeat split. Qed.

Section Properties.

Context {env : Environment}.

(** ** The identifier resolver *)

Lemma provided_ids_truthy (row : Row) :
  sha row <> "" ->
  exists uid rest, Etl.provided_ids row = Some (uid :: rest) /\
                   Str.split_semi (sha row) = uid :: rest.
Proof.
  intros Hsha. unfold Etl.provided_ids.
  destruct (sha row) as [|c s] eqn:E; [done|]. simpl Str.truthy. cbv iota.
  destruct (Str.split_semi (String c s)) as [|uid rest] eqn:Hs.
  - by destruct (split_semi_nonempty (String c s)).
  - by exists uid, rest.
Qed.

Lemma getIds_provided (row : Row) (ids : gset string) :
  sha row <> "" -> Etl.getIds row ids = (Some (Str.split_semi (sha row)), ids).
Proof.
  intros Hsha. unfold Etl.getIds.
  destruct (provided_ids_truthy row Hsha) as (uid & rest & -> & ->). done.
Qed.

Lemma getIds_fallback (row : Row) (ids : gset string) :
  sha row = "" ->
  Etl.getIds row ids =
    if decide (sha1 (title row) ∈ ids) then (None, ids)
    else (Some [sha1 (title row)], {[sha1 (title row)]} ∪ ids).
Proof. intros Hsha. unfold Etl.getIds, Etl.provided_ids. by rewrite Hsha. Qed.

Lemma getIds_cases (row : Row) (ids : gset string) :
  (Etl.getIds row ids).1 = None \/
  exists uid rest, (Etl.getIds row ids).1 = Some (uid :: rest).
Proof.
  destruct (decide (sha row = "")) as [Hsha|Hsha].
  - rewrite getIds_fallback by done. case_decide; [by left|right]. by eexists _, _.
  - right. rewrite getIds_provided by done.
    destruct (provided_ids_truthy row Hsha) as (uid & rest & _ & ->).
    by exists uid, rest.
Qed.

(** ** The date parser *)

Lemma getDate_total (row : Row) : exists d, Etl.getDate row = Ok d.
Proof.
  unfold Etl.getDate. destruct (Str.truthy _); [|by eexists].
  destruct (parse _); by eexists.
Qed.

(** ** One metadata row *)

Lemma process_skip (directory : string) (st : state) (row : Row) :
  (Etl.getIds row (ids st)).1 = None ->
  Etl.process directory st row = Ok st.
Proof.
  unfold Etl.process. destruct (decide (sha row = "")) as [Hsha|Hsha].
  - rewrite getIds_fallback by done. case_decide; [|done]. intros _.
    by destruct st.
  - by rewrite getIds_provided.
Qed.

Lemma process_document (directory : string) (st : state) (row : Row)
    (uid : string) (rest : list string) (ids' : gset string) :
  Etl.getIds row (ids st) = (Some (uid :: rest), ids') ->
  exists date, Etl.getDate row = Ok date /\
    Etl.process directory st row = Ok (document directory st row uid date ids').
Proof.
  intros Hids. unfold Etl.process. rewrite Hids. simpl.
  destruct (getDate_total row) as [date Hdate]. exists date. split; [done|].
  rewrite Hdate. simpl. unfold document.
  by destruct (Etl.add_sections _ _ _ _ _).
Qed.

Lemma process_total (directory : string) (st : state) (row : Row) :
  exists st', Etl.process directory st row = Ok st'.
Proof.
  destruct (getIds_cases row (ids st)) as [Hnone|(uid & rest & Hsome)].
  - exists st. by apply process_skip.
  - destruct (Etl.getIds row (ids st)) as [uids ids'] eqn:Hids.
    simpl in Hsome. subst uids.
    destruct (process_document directory st row uid rest ids' Hids)
      as (date & _ & ->). by eexists.
Qed.

(** C10. Whatever the row and the set of generated ids, the resolver
    returns [None] or a list with a first element, never the empty list;
    so [uids[0]] in the orchestrator is in bounds and processing a row
    never raises. *)
Theorem C10_getIds_never_empty (row : Row) (generated : gset string) :
  ((Etl.getIds row generated).1 = None \/
   exists uid rest, (Etl.getIds row generated).1 = Some (uid :: rest) /\
                    Etl.first_id (uid :: rest) = Ok uid) /\
  (Etl.getIds row generated).1 <> Some [] /\
  forall directory st, exists st', Etl.process directory st row = Ok st'.
Proof.
  split; [|split].
  - destruct (getIds_cases row generated) as [?|(uid & rest & ?)]; [by left|].
    right. by exists uid, rest.
  - destruct (getIds_cases row generated) as [->|(uid & rest & ->)]; done.
  - intros directory st. apply process_total.
Qed.

(** ** The tagger *)

Lemma getTags_fold (sections : list string) (tags : option string) :
  fold_left
    (fun tags text => if Etl.has_keyword text then Some "COVID-19" else tags)
    sections tags
  = if existsb Etl.has_keyword sections then Some "COVID-19" else tags.
Proof.
  revert tags. induction sections as [|text rest IH]; intros tags; [done|].
  simpl. rewrite IH. destruct (Etl.has_keyword text); simpl; [|done].
  by destruct (existsb _ rest).
Qed.

Lemma has_keyword_spec (text : string) :
  Etl.has_keyword text = true <->
  exists k, k ∈ Etl.keywords /\ occurs_ignoring_case k text.
Proof.
  unfold Etl.has_keyword. rewrite existsb_exists.
  split; intros (k & Hk & Hocc); exists k.
  - by rewrite list_elem_of_In, <- contains_lower.
  - by rewrite <- list_elem_of_In, contains_lower.
Qed.

(** C4. The tagger returns the label COVID-19 exactly when some fragment
    contains one of the keywords up to case, and null otherwise; the two
    examples of the specification evaluate as it says. *)
Theorem C4_tagger_iff_keyword (sections : list string) :
  (Etl.getTags sections = Some "COVID-19" <->
   exists text k, text ∈ sections /\ k ∈ Etl.keywords /\
                  occurs_ignoring_case k text) /\
  (Etl.getTags sections = None <->
   ~ exists text k, text ∈ sections /\ k ∈ Etl.keywords /\
                    occurs_ignoring_case k text) /\
  Etl.getTags ["Study of flu"] = None /\
  Etl.getTags ["COVID-19 outbreak report"] = Some "COVID-19".
Proof.
  assert (Hex : existsb Etl.has_keyword sections = true <->
                exists text k, text ∈ sections /\ k ∈ Etl.keywords /\
                               occurs_ignoring_case k text).
  { rewrite existsb_exists. split.
    - intros (text & Hin & Hk). apply has_keyword_spec in Hk as (k & ? & ?).
      exists text, k. by rewrite list_elem_of_In.
    - intros (text & k & Hin & Hk & Hocc). exists text.
      rewrite <- list_elem_of_In. split; [done|].
      apply has_keyword_spec. by exists k. }
  assert (Htags : Etl.getTags sections =
            if existsb Etl.has_keyword sections then Some "COVID-19" else None)
    by apply getTags_fold.
  rewrite Htags, <- Hex.
  split; [|split; [|split; reflexivity]];
    destruct (existsb Etl.has_keyword sections); split; try done.
  all: intros H; by destruct H.
Qed.

(** ** The date parser, continued *)

Lemma getDate_four_digits (row : Row) :
  Str.isdigit unicode_isdigit (publish_time row) = true ->
  Str.len (publish_time row) = 4 ->
  Etl.getDate row =
    match parse (publish_time row +:+ "-01-01") with
    | Ok d => Ok (Some d)
    | Raise _ => Ok None
    end.
Proof.
  intros Hdigit Hlen. unfold Etl.getDate. rewrite Hdigit, Hlen.
  destruct (publish_time row); [done|]. simpl.
  by destruct (parse _).
Qed.

(** C5. An empty date string gives no date; a string of exactly four
    digits is parsed with -01-01 appended, so that 2020 gives the first of
    January 2020 when the parser reads 2020-01-01 so; and the result is
    always a value, null whenever the parser raises, never an exception. *)
Theorem C5_date_parser (row : Row) :
  (publish_time row = "" -> Etl.getDate row = Ok None) /\
  (Str.isdigit unicode_isdigit (publish_time row) = true ->
   Str.len (publish_time row) = 4 ->
   forall d, parse (publish_time row +:+ "-01-01") = Ok d ->
             Etl.getDate row = Ok (Some d)) /\
  (Etl.getDate row = Ok None \/
   exists s d, parse s = Ok d /\ Etl.getDate row = Ok (Some d)) /\
  (Str.isdigit unicode_isdigit (publish_time row) = true ->
   Str.len (publish_time row) = 4 ->
   (exists e, parse (publish_time row +:+ "-01-01") = Raise e) ->
   Etl.getDate row = Ok None) /\
  (Str.isdigit unicode_isdigit (publish_time row)
   && (Str.len (publish_time row) =? 4) = false ->
   (exists e, parse (publish_time row) = Raise e) ->
   Etl.getDate row = Ok None) /\
  (publish_time row = "2020" ->
   parse "2020-01-01" = Ok (mkDate 2020 1 1 0 0 0) ->
   Etl.getDate row = Ok (Some (mkDate 2020 1 1 0 0 0))) /\
  (publish_time row = "not-a-date" ->
   (exists e, parse "not-a-date" = Raise e) ->
   Etl.getDate row = Ok None).
Proof.
  repeat split.
  - intros Hempty. unfold Etl.getDate. by rewrite Hempty.
  - intros Hdigit Hlen d Hparse. by rewrite getDate_four_digits, Hparse.
  - unfold Etl.getDate. destruct (Str.truthy _); [|by left].
    destruct (parse _) as [d|e] eqn:Hparse; [right|by left].
    by eexists _, d.
  - intros Hdigit Hlen [e Hparse]. by rewrite getDate_four_digits, Hparse.
  - intros Hnot [e Hparse]. unfold Etl.getDate. rewrite Hnot, Hparse.
    by destruct (Str.truthy _).
  - intros Hpt Hparse. unfold Etl.getDate. rewrite Hpt. simpl.
    change ("2020" +:+ "-01-01") with "2020-01-01". by rewrite Hparse.
  - intros Hpt [e Hparse]. unfold Etl.getDate. rewrite Hpt. simpl.
    by rewrite Hparse.
Qed.

(** ** Value conversion *)

Lemma convert_coerced (ctype : string) (val v : value) :
  Etl.convert ctype val = Ok v -> coerced ctype val v.
Proof.
  unfold Etl.convert.
  destruct (Str.startswith ctype "INTEGER") eqn:Hint.
  - destruct (Value.truthy val) eqn:Htruthy.
    + destruct (Value.to_int unicode_int val) as [n|e] eqn:Hn; [|done].
      intros [= <-]. by apply coerced_integer_parse.
    + intros [= <-]. by apply coerced_integer_empty.
  - case_bool_decide as Hbool.
    + case_bool_decide as Htrue; intros [= <-].
      * by apply coerced_boolean_true.
      * by apply coerced_boolean_false.
    + intros [= <-]. by apply coerced_other.
Qed.

Lemma coerced_convert (ctype : string) (val v : value) :
  coerced ctype val v -> Etl.convert ctype val = Ok v.
Proof.
  unfold Etl.convert. intros [Hint Hf|n Hint Ht Hn|Hb Hv|Hb Hv|Hint Hb].
  - by rewrite Hint, Hf.
  - by rewrite Hint, Ht, Hn.
  - subst. reflexivity.
  - subst ctype. simpl. by rewrite bool_decide_false.
  - by rewrite Hint, bool_decide_false.
Qed.

Lemma column_type_lookup (table : schema) (i : nat) (name ctype : string) :
  NoDup (table.*1) -> table !! i = Some (name, ctype) ->
  Etl.column_type table name = Ok ctype.
Proof.
  revert i. induction table as [|[n c] rest IH]; intros i Hnodup Hi; [done|].
  simpl in *. apply NoDup_cons in Hnodup as [Hnotin Hnodup].
  destruct i as [|i].
  - injection Hi as -> ->. by rewrite decide_True.
  - rewrite decide_False; [by eapply IH|].
    intros ->. apply Hnotin. apply list_elem_of_fmap.
    exists (name, ctype). split; [done|]. by eapply list_elem_of_lookup_2.
Qed.

Lemma values_from_spec (table : schema) (row : list value)
    (columns : list string) (x : nat) (out : list value) :
  Etl.values_from x table row columns = Ok out ->
  length out = length columns /\
  forall j name, columns !! j = Some name ->
    exists val ctype v,
      row !! (x + j)%nat = Some val /\ Etl.column_type table name = Ok ctype /\
      Etl.convert ctype val = Ok v /\ out !! j = Some v.
Proof.
  revert x out. induction columns as [|column rest IH]; intros x out.
  - intros [= <-]. by split.
  - simpl. unfold Etl.row_item.
    destruct (row !! x) as [val|] eqn:Hval; [simpl|done].
    destruct (Etl.column_type table column) as [ctype|] eqn:Hty; [simpl|done].
    destruct (Etl.convert ctype val) as [v|] eqn:Hv; [simpl|done].
    destruct (Etl.values_from (S x) table row rest) as [vs|] eqn:Hvs; [simpl|done].
    intros [= <-]. destruct (IH _ _ Hvs) as [Hlen Hcols]. split; [simpl; lia|].
    intros [|j] name Hj.
    + injection Hj as <-. exists val, ctype, v. by rewrite Nat.add_0_r.
    + destruct (Hcols j name Hj) as (val' & ctype' & v' & ? & ? & ? & ?).
      exists val', ctype', v'. by replace (x + S j)%nat with (S x + j)%nat by lia.
Qed.

(** C8. When [values] converts a row for a schema, every output value is
    the input value of the same position converted by the declared type
    of its column: INTEGER columns through the numeric parse with empty
    and null giving 0, BOOLEAN columns to 1 for the literal TRUE and 0 for
    everything else, all other columns unchanged. *)
Theorem C8_values_by_declared_type (table : schema) (row out : list value) :
  NoDup (table.*1) ->
  Etl.values table row (table.*1) = Ok out ->
  length out = length table /\
  (forall i name ctype, table !! i = Some (name, ctype) ->
     exists val v, row !! i = Some val /\ out !! i = Some v /\
                   coerced ctype val v) /\
  (forall ctype val, Str.startswith ctype "INTEGER" = true ->
     Etl.convert ctype val =
       if Value.truthy val then VInt <$> Value.to_int unicode_int val
       else Ok (VInt 0)) /\
  (forall val, Etl.convert "BOOLEAN" val =
     Ok (VInt (if bool_decide (val = VStr "TRUE") then 1 else 0))) /\
  (forall ctype val, Str.startswith ctype "INTEGER" = false ->
     ctype <> "BOOLEAN" -> Etl.convert ctype val = Ok val) /\
  (forall ctype val v, coerced ctype val v <-> Etl.convert ctype val = Ok v).
Proof.
  intros Hnodup Hvalues.
  destruct (values_from_spec _ _ _ _ _ Hvalues) as [Hlen Hcols].
  split; [by rewrite length_fmap in Hlen|].
  split; [|split; [|split; [|split]]];
    [| | | |split; [apply coerced_convert|apply convert_coerced]].
  - intros i name ctype Hi.
    destruct (Hcols i name) as (val & ctype' & v & Hrow & Hty & Hconv & Hout).
    { rewrite list_lookup_fmap. by rewrite Hi. }
    rewrite (column_type_lookup _ _ _ _ Hnodup Hi) in Hty.
    injection Hty as <-. exists val, v. auto using convert_coerced.
  - intros ctype val Hint. unfold Etl.convert. rewrite Hint.
    destruct (Value.truthy val); [|done].
    by destruct (Value.to_int unicode_int val).
  - done.
  - intros ctype val Hint Hbool. unfold Etl.convert.
    by rewrite Hint, bool_decide_false.
Qed.

(** ** The section extractor *)

Lemma read_blocks_expected (blocks : list json) (texts sections : list string) :
  Forall2 (fun block t => block_text block = Some t) blocks texts ->
  Etl.read_blocks blocks sections =
    (sections ++ concat (fragments <$> texts), Ok ()).
Proof.
  intros Hshape. revert sections.
  induction Hshape as [|block t blocks texts Ht _ IH]; intros sections.
  - simpl. by rewrite app_nil_r.
  - destruct block as [| | | | |kv]; try done. simpl in Ht.
    destruct (Json.assoc "text" kv) as [[| | |s| |]|] eqn:Hassoc; try done.
    injection Ht as ->.
    cbn [Etl.read_blocks Json.getitem]. rewrite Hassoc. simpl.
    unfold fragments at 1.
    destruct (Str.contains Etl.marker t); simpl; rewrite IH.
    + by rewrite app_nil_r.
    + by rewrite <- app_assoc.
Qed.

Lemma read_blocks_grows (blocks : list json) (sections : list string) :
  exists more, (Etl.read_blocks blocks sections).1 = sections ++ more.
Proof.
  revert sections. induction blocks as [|block rest IH]; intros sections.
  - exists []. simpl. by rewrite app_nil_r.
  - cbn [Etl.read_blocks]. destruct (_ ≫= _) as [sentences|e].
    + destruct (IH (sections ++ sentences)) as [more ->].
      exists (sentences ++ more). by rewrite app_assoc.
    + exists []. simpl. by rewrite app_nil_r.
Qed.

Lemma read_blocks_app_expected (blocks rest : list json)
    (texts sections : list string) :
  Forall2 (fun block t => block_text block = Some t) blocks texts ->
  Etl.read_blocks (blocks ++ rest) sections =
    Etl.read_blocks rest (sections ++ concat (fragments <$> texts)).
Proof.
  intros Hshape. revert sections.
  induction Hshape as [|block t blocks texts Ht _ IH]; intros sections.
  - simpl. by rewrite app_nil_r.
  - destruct block as [| | | | |kv]; try done. simpl in Ht.
    destruct (Json.assoc "text" kv) as [[| | |s| |]|] eqn:Hassoc; try done.
    injection Ht as ->. rewrite <- app_comm_cons.
    cbn [Etl.read_blocks Json.getitem]. rewrite Hassoc. simpl.
    unfold fragments at 1.
    destruct (Str.contains Etl.marker t); simpl; rewrite IH.
    + by rewrite app_nil_r.
    + by rewrite <- app_assoc.
Qed.

(** C7. In a body file of the expected shape, a block whose text holds
    the boilerplate marker adds nothing, and every other block adds its
    sentences, in the order of the document.  The same holds of the blocks
    that come before a block of another shape. *)
Theorem C7_boilerplate_blocks_skipped (article : string) (data : json)
    (blocks : list json) (texts sections : list string) :
  json_file article = Json data ->
  Json.getitem data "body_text" = Ok (JArr blocks) ->
  Forall2 (fun block t => block_text block = Some t) blocks texts ->
  Etl.read_article article sections =
    (sections ++ concat (fragments <$> texts), Ok ()) /\
  (forall t, Str.contains Etl.marker t = true -> fragments t = []) /\
  (forall t, Str.contains Etl.marker t = false -> fragments t = sent_tokenize t) /\
  (forall directory row uid,
     Etl.provided_ids row = Some [uid] -> full_text_file row <> "" ->
     article = Etl.article_path directory (full_text_file row) uid ->
     Etl.read directory row = concat (fragments <$> texts)) /\
  (forall article' data' rest,
     json_file article' = Json data' ->
     Json.getitem data' "body_text" = Ok (JArr (blocks ++ rest)) ->
     exists more,
       (Etl.read_article article' sections).1 =
         sections ++ concat (fragments <$> texts) ++ more).
Proof.
  intros Hfile Hbody Hshape.
  assert (Hread : forall acc, Etl.read_article article acc =
            (acc ++ concat (fragments <$> texts), Ok ())).
  { intros acc. unfold Etl.read_article. rewrite Hfile, Hbody. simpl.
    by apply read_blocks_expected. }
  split; [apply Hread|]. split; [|split; [|split]].
  - intros t Ht. unfold fragments. by rewrite Ht.
  - intros t Ht. unfold fragments. by rewrite Ht.
  - intros directory row uid Hids Hsubset ->. unfold Etl.read.
    rewrite Hids. destruct (full_text_file row) eqn:E; [done|].
    simpl. by rewrite Hread.
  - intros article' data' rest Hfile' Hbody'. unfold Etl.read_article.
    rewrite Hfile', Hbody'. simpl. rewrite (read_blocks_app_expected _ _ texts) by done.
    destruct (read_blocks_grows rest (sections ++ concat (fragments <$> texts)))
      as [more ->].
    exists more. by rewrite app_assoc.
Qed.

(** ** The store *)

Lemma bind_all_Ok (vals bound : list value) :
  Sqlite.bind_all vals = Ok bound -> bound = vals.
Proof.
  revert bound. induction vals as [|v rest IH]; intros bound; simpl.
  - by intros [= <-].
  - destruct (Sqlite.bind v) as [v'|] eqn:Hv; [simpl|done].
    destruct (Sqlite.bind_all rest) as [rest'|]; [simpl|done].
    intros [= <-]. rewrite (IH rest') by done. f_equal.
    unfold Sqlite.bind in Hv. destruct v; try congruence.
    + destruct (_ && _); congruence.
    + destruct (Str.has_surrogate _); congruence.
Qed.

Lemma binds_true (vals : list value) :
  binds vals = true -> Sqlite.bind_all vals = Ok vals.
Proof.
  unfold binds. destruct (Sqlite.bind_all vals) as [bound|] eqn:Hb; [|done].
  intros _. by rewrite (bind_all_Ok _ _ Hb).
Qed.

Lemma binds_false (vals : list value) :
  binds vals = false -> exists e, Sqlite.bind_all vals = Raise e.
Proof.
  unfold binds. destruct (Sqlite.bind_all vals); [done|]. by eexists.
Qed.

Lemma after_insert_other (tbls : gmap string table) (name other : string)
    (columns : list string) (vals : list value) :
  other <> name -> after_insert tbls name columns vals !! other = tbls !! other.
Proof.
  intros Hne. unfold after_insert, Sqlite.insert_into.
  destruct (tbls !! name) as [t|]; [|done].
  destruct (negb (bool_decide (columns = _))); [done|].
  destruct (negb (bool_decide (length vals = _))); [done|].
  destruct (Sqlite.bind_all vals) as [bound|]; simpl; [|done].
  destruct (Sqlite.pk_taken t bound); [done|]. by rewrite lookup_insert_ne.
Qed.

Lemma after_insert_refused (tbls : gmap string table) (name : string)
    (columns : list string) (vals : list value) :
  binds vals = false -> after_insert tbls name columns vals = tbls.
Proof.
  intros [e He]%binds_false. unfold after_insert, Sqlite.insert_into.
  destruct (tbls !! name) as [t|]; [|done].
  destruct (negb (bool_decide (columns = _))); [done|].
  destruct (negb (bool_decide (length vals = _))); [done|].
  by rewrite He.
Qed.

Lemma after_insert_accepted (tbls : gmap string table) (name : string)
    (t : table) (vals : list value) :
  tbls !! name = Some t -> length vals = length (columns_of t) ->
  binds vals = true -> Sqlite.pk_taken t vals = false ->
  after_insert tbls name (columns_of t).*1 vals =
    <[name := mkTable (columns_of t) (rows t ++ [vals])]> tbls.
Proof.
  intros Ht Hlen Hbinds Hpk. unfold after_insert, Sqlite.insert_into.
  rewrite Ht, bool_decide_true by done. simpl.
  rewrite bool_decide_true by by rewrite length_fmap. simpl.
  rewrite (binds_true _ Hbinds). simpl. by rewrite Hpk.
Qed.

Lemma after_insert_same (tbls : gmap string table) (name : string)
    (t : table) (columns : list string) (vals : list value) :
  tbls !! name = Some t ->
  exists t', after_insert tbls name columns vals !! name = Some t' /\
    columns_of t' = columns_of t /\
    (rows t' = rows t \/
     rows t' = rows t ++ [vals] /\ binds vals = true /\
     Sqlite.pk_taken t vals = false).
Proof.
  intros Ht. unfold after_insert, Sqlite.insert_into. rewrite Ht.
  destruct (negb (bool_decide (columns = _))); [by exists t; auto|].
  destruct (negb (bool_decide (length vals = _))); [by exists t; auto|].
  destruct (Sqlite.bind_all vals) as [bound|] eqn:Hb; simpl; [|by exists t; auto].
  pose proof (bind_all_Ok _ _ Hb) as ->.
  destruct (Sqlite.pk_taken t vals) eqn:Hpk; [by exists t; auto|].
  eexists. rewrite lookup_insert_eq. split; [done|]. split; [done|]. right.
  unfold binds. by rewrite Hb.
Qed.

Lemma insert_converted (d : connection) (table : schema) (name : string)
    (row vals : list value) :
  Etl.values table row table.*1 = Ok vals ->
  Etl.insert d table name row =
    mkConn (after_insert (tables d) name table.*1 vals)
           (executed d ++ [(name, vals)]).
Proof.
  intros Hvals. unfold Etl.insert, Sqlite.execute_insert, after_insert.
  rewrite Hvals. by destruct (Sqlite.insert_into _ _ _ _).
Qed.

Lemma values_section_row (k : Z) (uid text : string) (tags : option string) :
  Etl.values SECTIONS (Etl.section_row k uid text tags) SECTIONS.*1 =
    Ok (Etl.section_row k uid text tags).
Proof.
  unfold Etl.values, Etl.section_row. simpl. unfold Etl.convert at 1. simpl.
  destruct (k =? 0) eqn:Hk; simpl; [|done].
  apply Z.eqb_eq in Hk. by subst.
Qed.

Lemma values_article_row (uid : string) (row : Row) (date : option datetime)
    (tags : option string) :
  Etl.values ARTICLES (Etl.article_row uid row date tags) ARTICLES.*1 =
    Ok (Etl.article_row uid row date tags).
Proof. reflexivity. Qed.

Lemma insert_section_row (d : connection) (k : Z) (uid text : string)
    (tags : option string) :
  Etl.insert d SECTIONS "sections" (Etl.section_row k uid text tags) =
    mkConn (after_insert (tables d) "sections" SECTIONS.*1
              (Etl.section_row k uid text tags))
           (executed d ++ [("sections", Etl.section_row k uid text tags)]).
Proof. apply insert_converted, values_section_row. Qed.

Lemma insert_article_row (d : connection) (uid : string) (row : Row)
    (date : option datetime) (tags : option string) :
  Etl.insert d ARTICLES "articles" (Etl.article_row uid row date tags) =
    mkConn (after_insert (tables d) "articles" ARTICLES.*1
              (Etl.article_row uid row date tags))
           (executed d ++ [("articles", Etl.article_row uid row date tags)]).
Proof. apply insert_converted, values_article_row. Qed.

(** ** The statements of a run *)

Lemma rows_for_app (name : string) (l1 l2 : list statement) :
  rows_for name (l1 ++ l2) = rows_for name l1 ++ rows_for name l2.
Proof. unfold rows_for. by rewrite filter_app, fmap_app. Qed.

Lemma rows_for_same (name : string) (l : list (list value)) :
  rows_for name (pair name <$> l) = l.
Proof.
  unfold rows_for. induction l as [|r l IH]; [done|].
  rewrite fmap_cons, filter_cons_True by done. simpl. by f_equal.
Qed.

Lemma rows_for_other (name other : string) (l : list (list value)) :
  other <> name -> rows_for name (pair other <$> l) = [].
Proof.
  intros Hne. unfold rows_for. induction l as [|r l IH]; [done|].
  by rewrite fmap_cons, filter_cons_False.
Qed.

Lemma rows_for_elem (name : string) (r : list value) (l : list statement) :
  r ∈ rows_for name l <-> (name, r) ∈ l.
Proof.
  unfold rows_for. rewrite list_elem_of_fmap. split.
  - intros ([n r'] & -> & [Hn Hin]%list_elem_of_filter). simpl in *. by subst.
  - intros Hin. exists (name, r). split; [done|].
    by apply list_elem_of_filter.
Qed.

Lemma rows_for_document_articles (a : list value) (secs : list (list value)) :
  rows_for "articles" (document_statements a secs) = [a].
Proof.
  unfold document_statements.
  change (rows_for "articles" ([("articles", a)] ++ (pair "sections" <$> secs)) = [a]).
  by rewrite rows_for_app, rows_for_other.
Qed.

Lemma rows_for_document_sections (a : list value) (secs : list (list value)) :
  rows_for "sections" (document_statements a secs) = secs.
Proof.
  unfold document_statements.
  change (rows_for "sections" ([("articles", a)] ++ (pair "sections" <$> secs)) = secs).
  by rewrite rows_for_app, rows_for_same.
Qed.

Lemma section_rows_length (k : Z) (uid : string) (tags : option string)
    (sections : list string) :
  length (section_rows k uid tags sections) = length sections.
Proof. revert k. induction sections; intros k; simpl; by f_equal. Qed.

Lemma section_rows_ids (k : Z) (uid : string) (tags : option string)
    (sections : list string) :
  column 0 <$> section_rows k uid tags sections =
    VInt <$> seqZ k (Z.of_nat (length sections)).
Proof.
  revert k. induction sections as [|text rest IH]; intros k; [done|].
  cbn [section_rows length]. rewrite seqZ_cons by lia.
  rewrite !fmap_cons, IH. do 3 f_equal; lia.
Qed.

Lemma section_rows_elem (k : Z) (uid : string) (tags : option string)
    (sections : list string) (s : list value) :
  s ∈ section_rows k uid tags sections ->
  exists j text, s = Etl.section_row j uid text tags /\ text ∈ sections /\
                 k <= j < k + Z.of_nat (length sections).
Proof.
  revert k. induction sections as [|text rest IH]; intros k; simpl.
  - by intros ?%elem_of_nil.
  - intros [->|Hin]%elem_of_cons.
    + exists k, text. split; [done|]. split; [left|lia].
    + destruct (IH _ Hin) as (j & text' & -> & ? & ?).
      exists j, text'. split; [done|]. split; [by right|lia].
Qed.

(** The statements [add_sections] executes and the counter it returns
    do not depend on what the store accepts. *)
Lemma add_sections_executed (d : connection) (k : Z) (uid : string)
    (tags : option string) (sections : list string) :
  executed (Etl.add_sections d k uid tags sections).1 =
    executed d ++ (pair "sections" <$> section_rows k uid tags sections) /\
  (Etl.add_sections d k uid tags sections).2 = k + Z.of_nat (length sections).
Proof.
  revert d k. induction sections as [|text rest IH]; intros d k.
  - simpl. rewrite app_nil_r. split; [done|lia].
  - cbn [Etl.add_sections section_rows length].
    destruct (IH (Etl.insert d SECTIONS "sections"
                    (Etl.section_row k uid text tags)) (k + 1)) as [-> ->].
    rewrite insert_section_row. simpl. rewrite <- app_assoc.
    split; [done|lia].
Qed.

Lemma add_sections_other (d : connection) (k : Z) (uid : string)
    (tags : option string) (sections : list string) (name : string) :
  name <> "sections" ->
  tables (Etl.add_sections d k uid tags sections).1 !! name = tables d !! name.
Proof.
  intros Hne. revert d k. induction sections as [|text rest IH]; intros d k.
  - done.
  - cbn [Etl.add_sections]. rewrite IH, insert_section_row. simpl.
    by apply after_insert_other.
Qed.

Lemma pk_free_section (t : table) (k : Z) (uid text : string)
    (tags : option string) :
  columns_of t = SECTIONS ->
  (forall r, r ∈ rows t -> exists j, r !! 0%nat = Some (VInt j) /\ j < k) ->
  Sqlite.pk_taken t (Etl.section_row k uid text tags) = false.
Proof.
  intros Hcols Hrows. unfold Sqlite.pk_taken. rewrite Hcols. simpl.
  apply not_true_is_false. intros (r & Hin & Hr)%existsb_exists.
  apply list_elem_of_In in Hin. destruct (Hrows r Hin) as (j & Hj & Hlt).
  apply bool_decide_eq_true in Hr. rewrite Hj in Hr. injection Hr. lia.
Qed.

(** The section rows that reach the table are those the store can bind:
    their keys are fresh, so nothing else refuses them. *)
Lemma add_sections_stored (d : connection) (k : Z) (uid : string)
    (tags : option string) (sections : list string) (t : table) :
  tables d !! "sections" = Some t -> columns_of t = SECTIONS ->
  (forall r, r ∈ rows t -> exists j, r !! 0%nat = Some (VInt j) /\ j < k) ->
  exists t',
    tables (Etl.add_sections d k uid tags sections).1 !! "sections" = Some t' /\
    columns_of t' = SECTIONS /\
    rows t' = rows t ++ filter binds (section_rows k uid tags sections).
Proof.
  revert d k t. induction sections as [|text rest IH]; intros d k t Ht Hcols Hrows.
  - exists t. simpl. by rewrite filter_nil, app_nil_r.
  - cbn [Etl.add_sections section_rows]. rewrite insert_section_row.
    set (row := Etl.section_row k uid text tags).
    destruct (binds row) eqn:Hbinds.
    + change (SECTIONS.*1) with ((SECTIONS).*1). rewrite <- Hcols.
      rewrite (after_insert_accepted _ _ t) ; [|done|by rewrite Hcols|done|].
      2:{ by apply pk_free_section. }
      edestruct (IH (mkConn (<["sections" := mkTable (columns_of t) (rows t ++ [row])]>
                       (tables d)) (executed d ++ [("sections", row)]))
                    (k + 1)) as (t' & Ht' & Hcols' & Hrows').
      { simpl. by rewrite lookup_insert_eq. }
      { done. }
      { simpl. intros r [Hr| ->%list_elem_of_singleton]%elem_of_app.
        - destruct (Hrows r Hr) as (j & ? & ?). exists j. split; [done|lia].
        - exists k. split; [done|lia]. }
      exists t'. split; [exact Ht'|]. split; [congruence|].
      rewrite Hrows'. simpl. rewrite filter_cons_True by by rewrite Hbinds.
      by rewrite <- app_assoc.
    + rewrite after_insert_refused by done.
      edestruct (IH (mkConn (tables d) (executed d ++ [("sections", row)]))
                    (k + 1)) as (t' & Ht' & Hcols' & Hrows'); [done..| |].
      { intros r Hr. destruct (Hrows r Hr) as (j & ? & ?).
        exists j. split; [done|lia]. }
      exists t'. split; [done|]. split; [done|].
      rewrite Hrows'. rewrite filter_cons_False; [done|].
      rewrite Hbinds. by intros [].
Qed.

(** ** One document *)

Lemma document_executed (directory : string) (st : state) (row : Row)
    (uid : string) (date : option datetime) (ids' : gset string) :
  executed (db (document directory st row uid date ids')) =
    executed (db st) ++
    document_statements
      (Etl.article_row uid row date (tags_of directory row))
      (section_rows (sindex st) uid (tags_of directory row)
         (sections_of directory row)).
Proof.
  unfold document. cbn [db].
  rewrite (proj1 (add_sections_executed _ _ _ _ _)), insert_article_row.
  cbn [executed]. by rewrite <- app_assoc.
Qed.

Lemma document_sindex (directory : string) (st : state) (row : Row)
    (uid : string) (date : option datetime) (ids' : gset string) :
  sindex (document directory st row uid date ids') =
    sindex st + Z.of_nat (length (sections_of directory row)).
Proof.
  unfold document. cbn [sindex].
  by rewrite (proj2 (add_sections_executed _ _ _ _ _)).
Qed.

Lemma document_articles (directory : string) (st : state) (row : Row)
    (uid : string) (date : option datetime) (ids' : gset string) :
  tables (db (document directory st row uid date ids')) !! "articles" =
    after_insert (tables (db st)) "articles" ARTICLES.*1
      (Etl.article_row uid row date (tags_of directory row)) !! "articles".
Proof.
  unfold document. cbn [db].
  by rewrite add_sections_other, insert_article_row.
Qed.

Lemma submitted_ids_bound (l : list (list value)) (k : Z) (r : list value) :
  column 0 <$> l = VInt <$> seqZ 0 k -> r ∈ l ->
  exists j, r !! 0%nat = Some (VInt j) /\ 0 <= j < k.
Proof.
  intros Hids Hr.
  assert (Hin : column 0 r ∈ VInt <$> seqZ 0 k).
  { rewrite <- Hids. apply list_elem_of_fmap. by exists r. }
  apply list_elem_of_fmap in Hin as (j & Hj & Hseq).
  apply elem_of_seqZ in Hseq. exists j. split; [|lia].
  unfold column in Hj. by destruct (r !! 0%nat); simplify_eq/=.
Qed.

Lemma document_consistent (directory : string) (st : state) (row : Row)
    (uid : string) (date : option datetime) (ids' : gset string) :
  consistent st -> consistent (document directory st row uid date ids').
Proof.
  intros [[ta [Hta Hca]] [ts [Hts Hcs]] Hids Hstored Hk].
  assert (Hsub : submitted (db (document directory st row uid date ids')) "sections"
            = submitted (db st) "sections" ++
              section_rows (sindex st) uid (tags_of directory row)
                (sections_of directory row)).
  { unfold submitted. by rewrite document_executed, rows_for_app,
      rows_for_document_sections. }
  assert (Hold : forall r, r ∈ rows ts ->
            exists j, r !! 0%nat = Some (VInt j) /\ j < sindex st).
  { intros r Hr. unfold stored in Hstored. rewrite Hts in Hstored.
    rewrite Hstored in Hr. apply list_elem_of_filter in Hr as [_ Hr].
    destruct (submitted_ids_bound _ _ _ Hids Hr) as (j & ? & ?).
    exists j. split; [done|lia]. }
  destruct (add_sections_stored
              (Etl.insert (db st) ARTICLES "articles"
                 (Etl.article_row uid row date (tags_of directory row)))
              (sindex st) uid (tags_of directory row)
              (sections_of directory row) ts) as (ts' & Hts' & Hcs' & Hrows');
    [|done|done|].
  { rewrite insert_article_row. cbn [tables].
    by rewrite after_insert_other. }
  split.
  - rewrite document_articles.
    destruct (after_insert_same (tables (db st)) "articles" ta ARTICLES.*1
                (Etl.article_row uid row date (tags_of directory row)) Hta)
      as (ta' & -> & Hca' & _).
    exists ta'. split; [done|congruence].
  - by exists ts'.
  - rewrite Hsub, fmap_app, Hids, section_rows_ids, document_sindex.
    rewrite seqZ_app by lia. by rewrite fmap_app.
  - rewrite Hsub, filter_app. unfold stored at 1.
    change (tables (db (document directory st row uid date ids')) !! "sections")
      with (tables (Etl.add_sections
              (Etl.insert (db st) ARTICLES "articles"
                 (Etl.article_row uid row date (tags_of directory row)))
              (sindex st) uid (tags_of directory row)
              (sections_of directory row)).1 !! "sections").
    rewrite Hts', Hrows'. f_equal.
    unfold stored in Hstored. by rewrite Hts in Hstored.
  - rewrite document_sindex. lia.
Qed.

(** ** The loop *)

Lemma process_cases (directory : string) (st st' : state) (row : Row) :
  Etl.process directory st row = Ok st' ->
  (Etl.getIds row (ids st)).1 = None /\ st' = st \/
  exists uid rest date,
    Etl.getIds row (ids st) = (Some (uid :: rest), ids st') /\
    Etl.getDate row = Ok date /\
    st' = document directory st row uid date (ids st').
Proof.
  intros Hprocess.
  destruct (getIds_cases row (ids st)) as [Hnone|(uid & rest & Hsome)].
  - left. rewrite process_skip in Hprocess by done. by injection Hprocess.
  - right. destruct (Etl.getIds row (ids st)) as [uids ids'] eqn:Hids.
    simpl in Hsome. subst uids.
    destruct (process_document directory st row uid rest ids' Hids)
      as (date & Hdate & Hdoc).
    rewrite Hdoc in Hprocess. injection Hprocess as <-.
    by exists uid, rest, date.
Qed.

Lemma process_all_app (directory : string) (st : state) (l1 l2 : list Row) :
  Etl.process_all directory st (l1 ++ l2) =
    st' ← Etl.process_all directory st l1; Etl.process_all directory st' l2.
Proof.
  revert st. induction l1 as [|row l1 IH]; intros st; [done|].
  simpl. destruct (Etl.process directory st row); simpl; [apply IH|done].
Qed.

Lemma process_all_total (directory : string) (st : state) (rows : list Row) :
  exists st', Etl.process_all directory st rows = Ok st'.
Proof.
  revert st. induction rows as [|row rows IH]; intros st; [by eexists|].
  simpl. destruct (process_total directory st row) as [st1 ->]. apply IH.
Qed.

(** A property of the state that every row keeps holds after the loop. *)
Lemma process_all_ind (P : state -> Prop) (directory : string)
    (rows : list Row) :
  (forall st st' row, row ∈ rows -> P st ->
     Etl.process directory st row = Ok st' -> P st') ->
  forall st st', P st -> Etl.process_all directory st rows = Ok st' -> P st'.
Proof.
  induction rows as [|row rows IH]; intros Hstep st st' HP; simpl.
  - by intros [= <-].
  - destruct (Etl.process directory st row) as [st1|] eqn:H1; [simpl|done].
    apply IH; [|by eapply (Hstep st st1 row); [left|..]].
    intros ? ? r Hr. apply Hstep. by right.
Qed.

Lemma process_consistent (directory : string) (st st' : state) (row : Row) :
  consistent st -> Etl.process directory st row = Ok st' -> consistent st'.
Proof.
  intros Hst [[_ ->]|(uid & rest & date & _ & _ & ->)]%process_cases; [done|].
  by apply document_consistent.
Qed.

Lemma init_consistent (output : option string) :
  consistent (mkState (Etl.init output) 0 0 ∅).
Proof.
  split; simpl.
  - by exists (mkTable ARTICLES []).
  - by exists (mkTable SECTIONS []).
  - done.
  - done.
  - done.
Qed.

Lemma run_process_all (directory : string) (output : option string)
    (st : state) :
  Etl.run directory output = Ok st ->
  exists metadata,
    csv_rows (Path.join directory ["metadata.csv"]) = Some metadata /\
    Etl.process_all directory (mkState (Etl.init output) 0 0 ∅) metadata = Ok st.
Proof.
  unfold Etl.run. destruct (csv_rows _) as [metadata|]; [|done].
  intros Hrun. by exists metadata.
Qed.

Lemma run_consistent (directory : string) (output : option string)
    (st : state) :
  Etl.run directory output = Ok st -> consistent st.
Proof.
  intros (metadata & _ & Hall)%run_process_all.
  apply (process_all_ind consistent directory metadata)
    with (st := mkState (Etl.init output) 0 0 ∅);
    [|apply init_consistent|done].
  intros ? ? ? _. apply process_consistent.
Qed.

Lemma process_documents (directory : string) (metadata : list Row)
    (st st' : state) (row : Row) :
  row ∈ metadata ->
  documents directory metadata (executed (db st)) ->
  Etl.process directory st row = Ok st' ->
  documents directory metadata (executed (db st')).
Proof.
  intros Hrow Hst [[_ ->]|(uid & rest & date & _ & _ & ->)]%process_cases;
    [done|].
  rewrite document_executed. by apply documents_snoc.
Qed.

Lemma run_documents (directory : string) (output : option string)
    (st : state) (metadata : list Row) :
  csv_rows (Path.join directory ["metadata.csv"]) = Some metadata ->
  Etl.run directory output = Ok st ->
  documents directory metadata (executed (db st)).
Proof.
  intros Hcsv (metadata' & Hcsv' & Hall)%run_process_all.
  rewrite Hcsv in Hcsv'. injection Hcsv' as <-.
  apply (process_all_ind
           (fun st => documents directory metadata (executed (db st)))
           directory metadata)
    with (st := mkState (Etl.init output) 0 0 ∅); [|apply documents_nil|done].
  intros ? ? row Hrow. by apply process_documents.
Qed.

(** ** Section ids *)

Lemma filter_ids_bound (P : list value -> Prop) `{!forall r, Decision (P r)}
    (l : list (list value)) (m n : Z) (i : nat) (a : Z) :
  column 0 <$> l = VInt <$> seqZ m n ->
  (column 0 <$> filter P l) !! i = Some (VInt a) -> m <= a < m + n.
Proof.
  intros Hids Hi. apply list_elem_of_lookup_2 in Hi.
  apply list_elem_of_fmap in Hi as (r & Hr & [_ Hin]%list_elem_of_filter).
  assert (Hin' : column 0 r ∈ VInt <$> seqZ m n).
  { rewrite <- Hids. apply list_elem_of_fmap. by exists r. }
  apply list_elem_of_fmap in Hin' as (j & Hj & Hseq%elem_of_seqZ).
  rewrite <- Hr in Hj. by injection Hj as ->.
Qed.

Lemma filter_ids_increasing (P : list value -> Prop)
    `{!forall r, Decision (P r)} (l : list (list value)) (m n : Z) :
  column 0 <$> l = VInt <$> seqZ m n ->
  increasing (column 0 <$> filter P l).
Proof.
  revert m n. induction l as [|r l IH]; intros m n Hids i j a b Hij Hi Hj.
  - done.
  - destruct (decide (0 < n)) as [Hn|Hn].
    2:{ rewrite seqZ_nil in Hids by lia. done. }
    rewrite seqZ_cons in Hids by done. rewrite !fmap_cons in Hids.
    injection Hids as Hr Hids.
    destruct (decide (P r)) as [HP|HP].
    + rewrite filter_cons_True in Hi, Hj by done. rewrite fmap_cons in Hi, Hj.
      destruct j as [|j]; [lia|]. simpl in Hj. destruct i as [|i].
      * simpl in Hi. rewrite Hr in Hi. injection Hi as <-.
        pose proof (filter_ids_bound P l _ _ _ _ Hids Hj). lia.
      * simpl in Hi. eapply (IH _ _ Hids i j); [lia|done..].
    + rewrite filter_cons_False in Hi, Hj by done.
      by eapply (IH _ _ Hids i j).
Qed.

Lemma filter_binds_all (l : list (list value)) :
  Forall (fun r => binds r = true) l -> filter binds l = l.
Proof.
  induction 1 as [|r l Hr _ IH]; [done|].
  rewrite filter_cons_True by by rewrite Hr. by rewrite IH.
Qed.

(** C2 (amended). The ids the run hands to the section inserts count up
    from 0 one by one across all documents; the stored section rows are
    those of them the store could bind, so their ids are strictly
    increasing without repeats, and they are contiguous from 0 when no
    section insert is refused. *)
Theorem C2_section_ids_assigned_in_sequence (directory : string)
    (output : option string) (st : state) :
  Etl.run directory output = Ok st ->
  column 0 <$> submitted (db st) "sections" = VInt <$> seqZ 0 (sindex st) /\
  stored (db st) "sections" = filter binds (submitted (db st) "sections") /\
  increasing (section_ids (db st)) /\
  (Forall (fun r => binds r = true) (submitted (db st) "sections") ->
   contiguous_from 0 (section_ids (db st))).
Proof.
  intros [_ _ Hids Hstored Hk]%run_consistent.
  split; [done|]. split; [done|]. split.
  - unfold section_ids. rewrite Hstored. by eapply filter_ids_increasing.
  - intros Hall. unfold contiguous_from, section_ids. rewrite Hstored.
    rewrite (filter_binds_all _ Hall), Hids, !length_fmap, length_seqZ.
    by rewrite Z2Nat.id.
Qed.

(** ** Tags of a document *)

Lemma documents_section (directory : string) (metadata : list Row)
    (done : list statement) (s : list value) :
  documents directory metadata done -> ("sections", s) ∈ done ->
  exists row uid date k before after,
    row ∈ metadata /\
    done = before ++
      document_statements
        (Etl.article_row uid row date (tags_of directory row))
        (section_rows k uid (tags_of directory row) (sections_of directory row))
      ++ after /\
    s ∈ section_rows k uid (tags_of directory row) (sections_of directory row).
Proof.
  induction 1 as [|done row uid date k Hdone IH Hrow]; intros Hs.
  - by apply elem_of_nil in Hs.
  - apply elem_of_app in Hs as [Hs|Hs].
    + destruct (IH Hs) as (row' & uid' & date' & k' & before & after & ? & -> & ?).
      exists row', uid', date', k', before,
        (after ++ document_statements
           (Etl.article_row uid row date (tags_of directory row))
           (section_rows k uid (tags_of directory row)
              (sections_of directory row))).
      split; [done|]. split; [|done]. by rewrite <- !app_assoc.
    + exists row, uid, date, k, done, []. split; [done|].
      split; [by rewrite app_nil_r|].
      unfold document_statements in Hs.
      apply elem_of_cons in Hs as [[=]|Hs].
      apply list_elem_of_fmap in Hs as (s' & [= ->] & Hs'). done.
Qed.

(** C9. Every stored section row belongs to the statements of one
    document of the metadata table: the article row of that document
    followed by its section rows.  Its Tags value is the one computed for
    that document from its title and body, the same value the article row
    carries, and its Article value is the Id of that article row. *)
Theorem C9_section_tags_are_document_tags (directory : string)
    (output : option string) (st : state) (metadata : list Row)
    (s : list value) :
  csv_rows (Path.join directory ["metadata.csv"]) = Some metadata ->
  Etl.run directory output = Ok st ->
  s ∈ stored (db st) "sections" ->
  exists row uid date k before after,
    let tags := Etl.getTags (title row :: Etl.read directory row) in
    let a := Etl.article_row uid row date tags in
    let secs := section_rows k uid tags (title row :: Etl.read directory row) in
    row ∈ metadata /\
    executed (db st) = before ++ document_statements a secs ++ after /\
    s ∈ secs /\
    column 3 s = opt_str tags /\
    column 6 a = opt_str tags /\
    column 1 s = column 0 a.
Proof.
  intros Hcsv Hrun Hs.
  pose proof (run_consistent _ _ _ Hrun) as [_ _ _ Hstored _].
  rewrite Hstored in Hs. apply list_elem_of_filter in Hs as [_ Hs].
  apply rows_for_elem in Hs.
  destruct (documents_section _ _ _ _ (run_documents _ _ _ _ Hcsv Hrun) Hs)
    as (row & uid & date & k & before & after & Hrow & Hex & Hin).
  exists row, uid, date, k, before, after. cbn zeta.
  split; [done|]. split; [done|]. split; [done|].
  apply section_rows_elem in Hin as (j & text & -> & _ & _). done.
Qed.

(** ** Rows with an explicit identifier *)

Lemma pk_free_article (t : table) (uid : string) (row : Row)
    (date : option datetime) (tags : option string) :
  columns_of t = ARTICLES ->
  (forall r, r ∈ rows t -> column 0 r <> VStr uid) ->
  Sqlite.pk_taken t (Etl.article_row uid row date tags) = false.
Proof.
  intros Hcols Hrows. unfold Sqlite.pk_taken. rewrite Hcols. simpl.
  apply not_true_is_false. intros (r & Hin & Hr)%existsb_exists.
  apply list_elem_of_In in Hin. apply bool_decide_eq_true in Hr.
  apply (Hrows r Hin). unfold column. by rewrite Hr.
Qed.

Lemma document_stored_articles (directory : string) (st : state) (row : Row)
    (uid : string) (date : option datetime) (ids' : gset string) :
  let a := Etl.article_row uid row date (tags_of directory row) in
  let st' := document directory st row uid date ids' in
  (stored (db st') "articles" = stored (db st) "articles" \/
   stored (db st') "articles" = stored (db st) "articles" ++ [a]) /\
  (forall t, tables (db st) !! "articles" = Some t -> columns_of t = ARTICLES ->
     binds a = true -> (forall r, r ∈ rows t -> column 0 r <> VStr uid) ->
     stored (db st') "articles" = stored (db st) "articles" ++ [a]).
Proof.
  intros a st'. unfold stored. subst st'. rewrite document_articles. fold a.
  split.
  - destruct (tables (db st) !! "articles") as [t|] eqn:Ht.
    + destruct (after_insert_same _ _ t ARTICLES.*1 a Ht)
        as (t' & -> & _ & [->| [-> _]]); auto.
    + left. unfold after_insert, Sqlite.insert_into. by rewrite !Ht.
  - intros t Ht Hcols Hbinds Hfree. rewrite Ht.
    change (ARTICLES.*1) with ((ARTICLES).*1). rewrite <- Hcols.
    rewrite (after_insert_accepted _ _ t); [|done|by rewrite Hcols|done|].
    + by rewrite lookup_insert_eq.
    + by apply pk_free_article.
Qed.

(** C6. For a row with a non-empty sha field the resolver returns the
    pieces of the field as they are, whatever ids were generated before,
    and the article row handed to the store carries the first piece as
    its Id; that row is what the articles table gains. *)
Theorem C6_article_id_is_first_explicit_id (directory : string) (st : state)
    (row : Row) :
  sha row <> "" ->
  exists uid rest date st',
    let a := Etl.article_row uid row date
               (Etl.getTags (title row :: Etl.read directory row)) in
    Str.split_semi (sha row) = uid :: rest /\
    Str.join_semi (uid :: rest) = sha row /\
    Str.contains "; " uid = false /\
    Etl.getIds row (ids st) = (Some (uid :: rest), ids st) /\
    Etl.process directory st row = Ok st' /\
    submitted (db st') "articles" = submitted (db st) "articles" ++ [a] /\
    column 0 a = VStr uid /\
    (stored (db st') "articles" = stored (db st) "articles" \/
     stored (db st') "articles" = stored (db st) "articles" ++ [a]) /\
    (forall t, tables (db st) !! "articles" = Some t ->
       columns_of t = ARTICLES -> binds a = true ->
       (forall r, r ∈ rows t -> column 0 r <> VStr uid) ->
       stored (db st') "articles" = stored (db st) "articles" ++ [a]).
Proof.
  intros Hsha.
  destruct (provided_ids_truthy row Hsha) as (uid & rest & _ & Hsplit).
  pose proof (getIds_provided row (ids st) Hsha) as Hids.
  rewrite Hsplit in Hids.
  destruct (process_document directory st row uid rest _ Hids)
    as (date & _ & Hprocess).
  exists uid, rest, date, (document directory st row uid date (ids st)).
  cbn zeta. split; [done|]. split; [by rewrite <- Hsplit, join_split_semi|].
  split; [by eapply split_semi_first_clean|]. split; [done|].
  split; [done|]. split; [|split; [done|]].
  - unfold submitted. by rewrite document_executed, rows_for_app,
      rows_for_document_articles.
  - apply document_stored_articles.
Qed.

(** ** Rows without an explicit identifier *)

Lemma process_ids (directory : string) (st st' : state) (row : Row) :
  Etl.process directory st row = Ok st' ->
  ids st ⊆ ids st' /\ (sha row = "" -> sha1 (title row) ∈ ids st').
Proof.
  intros [[Hnone ->]|(uid & rest & date & Hids & _ & _)]%process_cases.
  - split; [done|]. intros Hsha. rewrite getIds_fallback in Hnone by done.
    by case_decide.
  - destruct (decide (sha row = "")) as [Hsha|Hsha].
    + rewrite getIds_fallback in Hids by done. case_decide; [done|].
      injection Hids as _ _ <-. split; [|intros _]; set_solver.
    + rewrite getIds_provided in Hids by done. by injection Hids as _ <-.
Qed.

Lemma process_all_ids (directory : string) (st st' : state) (rows : list Row) :
  Etl.process_all directory st rows = Ok st' -> ids st ⊆ ids st'.
Proof.
  apply (process_all_ind (fun s => ids st ⊆ ids s) directory rows); [|done].
  intros s s' row _ Hs [Hsub _]%process_ids. set_solver.
Qed.

(** C3. Of two rows without sha and with the same title the later one
    leaves the state as it was: no row is handed to the store, no counter
    moves, and the run ends as if the row were not in the table.  The
    earlier one is a document with the hash of the title as its id, unless
    that hash was generated before it.  A row with a sha is a document
    whatever was seen before: the resolver never rejects it. *)
Theorem C3_later_duplicate_title_is_skipped (directory : string) (st0 : state)
    (before between : list Row) (r1 r2 : Row) :
  sha r1 = "" -> sha r2 = "" -> title r1 = title r2 ->
  (exists st1,
     Etl.process_all directory st0 (before ++ r1 :: between) = Ok st1 /\
     Etl.process directory st1 r2 = Ok st1) /\
  (forall after,
     Etl.process_all directory st0 (before ++ r1 :: between ++ r2 :: after) =
     Etl.process_all directory st0 (before ++ r1 :: between ++ after)) /\
  (forall st, sha1 (title r1) ∉ ids st ->
     exists date st',
       Etl.process directory st r1 = Ok st' /\
       executed (db st') = executed (db st) ++
         document_statements
           (Etl.article_row (sha1 (title r1)) r1 date (tags_of directory r1))
           (section_rows (sindex st) (sha1 (title r1)) (tags_of directory r1)
              (sections_of directory r1))) /\
  (forall st r, sha r <> "" ->
     exists uid date st',
       (Etl.getIds r (ids st)).1 <> None /\
       Etl.process directory st r = Ok st' /\
       ids st' = ids st /\
       executed (db st') = executed (db st) ++
         document_statements
           (Etl.article_row uid r date (tags_of directory r))
           (section_rows (sindex st) uid (tags_of directory r)
              (sections_of directory r))).
Proof.
  intros Hsha1 Hsha2 Htitle.
  assert (Hskip : exists st1,
            Etl.process_all directory st0 (before ++ r1 :: between) = Ok st1 /\
            Etl.process directory st1 r2 = Ok st1).
  { destruct (process_all_total directory st0 before) as [sa Ha].
    destruct (process_total directory sa r1) as [sb Hb].
    destruct (process_all_total directory sb between) as [st1 Hc].
    exists st1. split.
    - rewrite process_all_app, Ha. simpl. by rewrite Hb.
    - apply process_skip. rewrite getIds_fallback by done.
      rewrite decide_True; [done|]. rewrite <- Htitle.
      apply (process_all_ids _ _ _ _ Hc).
      by apply (process_ids _ _ _ _ Hb). }
  split; [done|]. split; [|split].
  - intros after. destruct Hskip as (st1 & Hall & Hr2).
    change (before ++ r1 :: between ++ r2 :: after)
      with (before ++ (r1 :: between) ++ r2 :: after).
    change (before ++ r1 :: between ++ after)
      with (before ++ (r1 :: between) ++ after).
    rewrite !(assoc_L (++) before), !(process_all_app _ _ (before ++ _)), Hall.
    simpl. by rewrite Hr2.
  - intros st Hfresh.
    assert (Hids : Etl.getIds r1 (ids st) =
              (Some [sha1 (title r1)], {[sha1 (title r1)]} ∪ ids st)).
    { rewrite getIds_fallback by done. by rewrite decide_False. }
    destruct (process_document directory st r1 _ _ _ Hids) as (date & _ & Hp).
    exists date, (document directory st r1 (sha1 (title r1)) date
                    ({[sha1 (title r1)]} ∪ ids st)).
    split; [done|]. apply document_executed.
  - intros st r Hsha.
    destruct (provided_ids_truthy r Hsha) as (uid & rest & _ & Hsplit).
    pose proof (getIds_provided r (ids st) Hsha) as Hids.
    rewrite Hsplit in Hids.
    destruct (process_document directory st r uid rest _ Hids)
      as (date & _ & Hp).
    exists uid, date, (document directory st r uid date (ids st)).
    split; [by rewrite Hids|]. split; [done|]. split; [done|].
    apply document_executed.
Qed.

(** ** End to end *)

Lemma has_surrogate_reference (d : string) :
  Str.has_surrogate ("https://doi.org/" +:+ d) = Str.has_surrogate d.
Proof. by destruct d. Qed.

Lemma binds_article_row (uid : string) (row : Row) (date : option datetime)
    (tags : option string) :
  encodable_row row -> Str.has_surrogate uid = false ->
  Str.has_surrogate (title row) = false ->
  Str.has_surrogate (default "" tags) = false ->
  binds (Etl.article_row uid row date tags) = true.
Proof.
  intros (Hsource & Hjournal & Hauthors & Hdoi) Huid Htitle Htags.
  unfold binds, Etl.article_row. cbn [Sqlite.bind_all Sqlite.bind].
  rewrite Huid, Hsource, Hjournal, Hauthors, Htitle. simpl.
  assert (Hd : Sqlite.bind (opt_date date) = Ok (opt_date date)) by by destruct date.
  assert (Ht : Sqlite.bind (opt_str tags) = Ok (opt_str tags)).
  { destruct tags as [t|]; [|done]. simpl in *. by rewrite Htags. }
  assert (Hr : Sqlite.bind (opt_str (Etl.getReference row)) =
               Ok (opt_str (Etl.getReference row))).
  { unfold Etl.getReference. destruct (Str.truthy (doi row)); [|done].
    cbn [opt_str Sqlite.bind]. by rewrite has_surrogate_reference, Hdoi. }
  by rewrite Hd, Ht, Hr.
Qed.

(** C1. A metadata table with the one row sha abc, title T, subset S,
    and a body file at the derived path with the single block
    Hello world., give one article row, with Id abc, and two section rows:
    the title and the sentence, both of article abc. *)
Theorem C1_one_row_end_to_end (directory : string) (output : option string)
    (r : Row) :
  csv_rows (Path.join directory ["metadata.csv"]) = Some [r] ->
  sha r = "abc" -> title r = "T" -> full_text_file r = "S" ->
  json_file (Etl.article_path directory "S" "abc") =
    Json (JObj [("body_text", JArr [JObj [("text", JStr "Hello world.")]])]) ->
  sent_tokenize "Hello world." = ["Hello world."] ->
  encodable_row r ->
  exists st date,
    Etl.run directory output = Ok st /\
    Etl.getDate r = Ok date /\
    stored (db st) "articles" = [Etl.article_row "abc" r date None] /\
    column 0 (Etl.article_row "abc" r date None) = VStr "abc" /\
    stored (db st) "sections" =
      [[VInt 0; VStr "abc"; VStr "T"; VNone];
       [VInt 1; VStr "abc"; VStr "Hello world."; VNone]].
Proof.
  intros Hcsv Hsha Htitle Hsubset Hfile Htok Henc.
  set (st0 := mkState (Etl.init output) 0 0 ∅).
  assert (Hids : Etl.getIds r (ids st0) = (Some ["abc"], ids st0)).
  { rewrite getIds_provided by by rewrite Hsha. by rewrite Hsha. }
  destruct (process_document directory st0 r _ _ _ Hids) as (date & Hdate & Hp).
  assert (Hread : Etl.read directory r = ["Hello world."]).
  { unfold Etl.read, Etl.provided_ids. rewrite Hsha, Hsubset. simpl.
    unfold Etl.read_article. rewrite Hfile. simpl. by rewrite Htok. }
  assert (Hsections : sections_of directory r = ["T"; "Hello world."]).
  { unfold sections_of. by rewrite Hread, Htitle. }
  assert (Htags : tags_of directory r = None).
  { unfold tags_of. by rewrite Hsections. }
  exists (document directory st0 r "abc" date (ids st0)), date.
  split; [|split; [done|split; [|split; [done|]]]].
  - unfold Etl.run. rewrite Hcsv. simpl. fold st0. by rewrite Hp.
  - rewrite <- Htags.
    apply (proj2 (document_stored_articles directory st0 r "abc" date (ids st0))
             (mkTable ARTICLES [])); [done|done| |].
    + rewrite Htags. apply binds_article_row; [done|done| |done].
      by rewrite Htitle.
    + by intros ? ?%elem_of_nil.
  - destruct (add_sections_stored
                (Etl.insert (db st0) ARTICLES "articles"
                   (Etl.article_row "abc" r date (tags_of directory r)))
                0 "abc" (tags_of directory r) (sections_of directory r)
                (mkTable SECTIONS [])) as (t' & Ht' & _ & Hrows');
      [|done|by intros ? ?%elem_of_nil|].
    { rewrite insert_article_row. cbn [tables].
      by rewrite after_insert_other. }
    unfold stored.
    change (tables (db (document directory st0 r "abc" date (ids st0))) !! "sections")
      with (tables (Etl.add_sections
              (Etl.insert (db st0) ARTICLES "articles"
                 (Etl.article_row "abc" r date (tags_of directory r)))
              0 "abc" (tags_of directory r) (sections_of directory r)).1
            !! "sections").
    rewrite Ht', Hrows', Htags, Hsections. reflexivity.
Qed.

(** * Further properties of the code *)

(** ** The run as a whole *)

Lemma document_submitted_articles (directory : string) (st : state) (row : Row)
    (uid : string) (date : option datetime) (ids' : gset string) :
  submitted (db (document directory st row uid date ids')) "articles" =
    submitted (db st) "articles" ++
    [Etl.article_row uid row date (tags_of directory row)].
Proof.
  unfold submitted.
  by rewrite document_executed, rows_for_app, rows_for_document_articles.
Qed.

Lemma document_submitted_sections (directory : string) (st : state) (row : Row)
    (uid : string) (date : option datetime) (ids' : gset string) :
  submitted (db (document directory st row uid date ids')) "sections" =
    submitted (db st) "sections" ++
    section_rows (sindex st) uid (tags_of directory row)
      (sections_of directory row).
Proof.
  unfold submitted.
  by rewrite document_executed, rows_for_app, rows_for_document_sections.
Qed.

Lemma document_stored_sections (directory : string) (st : state) (row : Row)
    (uid : string) (date : option datetime) (ids' : gset string) :
  consistent st ->
  stored (db (document directory st row uid date ids')) "sections" =
    stored (db st) "sections" ++
    filter binds (section_rows (sindex st) uid (tags_of directory row)
                    (sections_of directory row)).
Proof.
  intros Hst.
  pose proof (document_consistent directory st row uid date ids' Hst)
    as [_ _ _ Hstored' _].
  destruct Hst as [_ _ _ Hstored _].
  by rewrite Hstored', document_submitted_sections, filter_app, Hstored.
Qed.

Lemma getIds_article_id (row : Row) (generated ids' : gset string)
    (uid : string) (rest : list string) :
  Etl.getIds row generated = (Some (uid :: rest), ids') -> uid = article_id row.
Proof.
  unfold article_id. destruct (decide (sha row = "")) as [Hsha|Hsha].
  - rewrite getIds_fallback by done. unfold Etl.provided_ids. rewrite Hsha.
    simpl. case_decide; [done|]. by intros [= -> _ _].
  - rewrite getIds_provided by done.
    destruct (provided_ids_truthy row Hsha) as (u & r & -> & ->).
    by intros [= -> _ _].
Qed.


Lemma pk_free_fresh (t : table) (a : list value) (uid : string) :
  columns_of t = ARTICLES -> a !! 0%nat = Some (VStr uid) ->
  Sqlite.pk_taken t a = false -> column 0 a ∉ column 0 <$> rows t.
Proof.
  intros Hcols Ha Hpk Hin. unfold Sqlite.pk_taken in Hpk.
  rewrite Hcols in Hpk. simpl in Hpk. rewrite Ha in Hpk.
  apply list_elem_of_fmap in Hin as (r & Hr & Hin).
  apply not_true_iff_false in Hpk. apply Hpk, existsb_exists.
  exists r. split; [by apply list_elem_of_In|]. apply bool_decide_eq_true.
  unfold column in Hr. rewrite Ha in Hr. simpl in Hr.
  by destruct (r !! 0%nat); simplify_eq/=.
Qed.

Lemma document_article_ids_distinct (directory : string) (st : state)
    (row : Row) (uid : string) (date : option datetime) (ids' : gset string) :
  consistent st ->
  NoDup (column 0 <$> stored (db st) "articles") ->
  NoDup (column 0 <$> stored (db (document directory st row uid date ids'))
                        "articles").
Proof.
  intros [[t [Ht Hcols]] _ _ _ _]. unfold stored.
  rewrite document_articles, Ht.
  destruct (after_insert_same _ _ t ARTICLES.*1
              (Etl.article_row uid row date (tags_of directory row)) Ht)
    as (t' & -> & _ & [->|(-> & _ & Hpk)]); [done|].
  intros Hnodup. rewrite fmap_app. apply NoDup_app. split; [done|]. split.
  - intros x Hx ->%list_elem_of_singleton. revert Hx.
    by eapply pk_free_fresh.
  - apply NoDup_singleton.
Qed.

(** X2. After a run no two rows of the articles table have the same Id. *)
Theorem run_article_ids_distinct (directory : string) (output : option string)
    (st : state) :
  Etl.run directory output = Ok st ->
  NoDup (column 0 <$> stored (db st) "articles").
Proof.
  intros (metadata & _ & Hall)%run_process_all.
  cut (consistent st /\ NoDup (column 0 <$> stored (db st) "articles"));
    [tauto|].
  apply (process_all_ind
           (fun s => consistent s /\ NoDup (column 0 <$> stored (db s) "articles"))
           directory metadata)
    with (st := mkState (Etl.init output) 0 0 ∅); [| |done].
  - intros s s' row _ [Hs Hnodup] Hp. split; [by eapply process_consistent|].
    apply process_cases in Hp as [[_ ->]|(uid & rest & date & _ & _ & ->)];
      [done|].
    by apply document_article_ids_distinct.
  - split; [apply init_consistent|]. apply NoDup_nil_2.
Qed.

Lemma run_counters (directory : string) (output : option string) (st : state) :
  Etl.run directory output = Ok st ->
  aindex st = Z.of_nat (length (submitted (db st) "articles")) /\
  stored (db st) "articles" `sublist_of` submitted (db st) "articles" /\
  aindex st <= sindex st.
Proof.
  intros (metadata & _ & Hall)%run_process_all.
  apply (process_all_ind
           (fun s => aindex s = Z.of_nat (length (submitted (db s) "articles")) /\
                     stored (db s) "articles" `sublist_of`
                       submitted (db s) "articles" /\
                     aindex s <= sindex s)
           directory metadata)
    with (st := mkState (Etl.init output) 0 0 ∅); [| |done].
  - intros s s' row _ (Ha & Hsub & Hle)
      [[_ ->]|(uid & rest & date & _ & _ & ->)]%process_cases; [done|].
    rewrite document_submitted_articles, document_sindex, length_app.
    split; [|split].
    + cbn [aindex document length]. lia.
    + destruct (proj1 (document_stored_articles directory s row uid date (ids s')))
        as [->| ->].
      * by apply sublist_inserts_r.
      * by apply sublist_app.
    + cbn [aindex document]. unfold sections_of. simpl. lia.
  - split; [done|]. split; [apply sublist_nil_l|done].
Qed.

(** X3. The counters of the run count what was handed to the store, not
    what it kept: [aindex] is the number of article rows submitted and
    [sindex] the number of section rows submitted.  The stored article
    rows are among the submitted ones, in the same order, so there are at
    most [aindex] of them; and every document has at least its title
    section, so [aindex] is at most [sindex]. *)
Theorem run_counters_count_submitted_rows (directory : string)
    (output : option string) (st : state) :
  Etl.run directory output = Ok st ->
  aindex st = Z.of_nat (length (submitted (db st) "articles")) /\
  sindex st = Z.of_nat (length (submitted (db st) "sections")) /\
  stored (db st) "articles" `sublist_of` submitted (db st) "articles" /\
  Z.of_nat (length (stored (db st) "articles")) <= aindex st /\
  aindex st <= sindex st.
Proof.
  intros Hrun. pose proof (run_consistent _ _ _ Hrun) as [_ _ Hids _ Hk].
  destruct (run_counters _ _ _ Hrun) as (Ha & Hsub & Hle).
  split; [done|]. split; [|split; [done|split; [|done]]].
  - apply (f_equal length) in Hids. rewrite !length_fmap, length_seqZ in Hids.
    lia.
  - rewrite Ha. apply inj_le. by apply sublist_length.
Qed.

Lemma process_ids_exact (directory : string) (st st' : state) (row : Row) :
  Etl.process directory st row = Ok st' ->
  forall h, h ∈ ids st' <-> h ∈ ids st \/ (sha row = "" /\ sha1 (title row) = h).
Proof.
  intros [[Hnone ->]|(uid & rest & date & Hids & _ & _)]%process_cases h.
  - destruct (decide (sha row = "")) as [Hsha|Hsha].
    + rewrite getIds_fallback in Hnone by done. case_decide; [|done].
      split; [by left|]. intros [?|[_ <-]]; done.
    + by rewrite getIds_provided in Hnone.
  - destruct (decide (sha row = "")) as [Hsha|Hsha].
    + rewrite getIds_fallback in Hids by done. case_decide; [done|].
      assert (ids st' = {[sha1 (title row)]} ∪ ids st) as -> by congruence.
      rewrite elem_of_union, elem_of_singleton. split.
      * intros [->|?]; [by right|by left].
      * intros [?|[_ <-]]; [by right|by left].
    + rewrite getIds_provided in Hids by done.
      assert (ids st' = ids st) as -> by congruence.
      split; [by left|]. by intros [?|[? _]].
Qed.

Lemma process_all_ids_exact (directory : string) (rows : list Row)
    (st st' : state) :
  Etl.process_all directory st rows = Ok st' ->
  forall h, h ∈ ids st' <->
            h ∈ ids st \/ exists r, r ∈ rows /\ sha r = "" /\ sha1 (title r) = h.
Proof.
  revert st. induction rows as [|row rows IH]; intros st; simpl.
  - intros [= <-] h. split; [by left|]. intros [?|(r & ?%elem_of_nil & _)]; done.
  - destruct (Etl.process directory st row) as [s1|] eqn:Hp; [simpl|done].
    intros Hall h. rewrite (IH _ Hall h), (process_ids_exact _ _ _ _ Hp h).
    split.
    + intros [[?|[? ?]]|(r & ? & ? & ?)]; [by left| |].
      * right. exists row. split; [left|done].
      * right. exists r. split; [by right|done].
    + intros [?|(r & [->|?]%elem_of_cons & ? & ?)]; [by left;left| |].
      * left. by right.
      * right. by exists r.
Qed.

(** X4. The set of generated ids after a run holds exactly the hashes of
    the titles of the rows without sha: rows with a sha never add to it. *)
Theorem run_generated_ids_are_title_hashes (directory : string)
    (output : option string) (st : state) (metadata : list Row) :
  csv_rows (Path.join directory ["metadata.csv"]) = Some metadata ->
  Etl.run directory output = Ok st ->
  forall h, h ∈ ids st <->
            exists r, r ∈ metadata /\ sha r = "" /\ sha1 (title r) = h.
Proof.
  intros Hcsv (metadata' & Hcsv' & Hall)%run_process_all h.
  rewrite Hcsv in Hcsv'. injection Hcsv' as <-.
  rewrite (process_all_ids_exact _ _ _ _ Hall h). simpl.
  split; [|by right]. by intros [?%not_elem_of_empty|?].
Qed.

(** ** Where the stored rows come from *)

Lemma run_submitted_provenance (directory : string) (output : option string)
    (st : state) (metadata : list Row) :
  csv_rows (Path.join directory ["metadata.csv"]) = Some metadata ->
  Etl.run directory output = Ok st ->
  (forall a, a ∈ submitted (db st) "articles" ->
     exists row date, row ∈ metadata /\ Etl.getDate row = Ok date /\
       a = Etl.article_row (article_id row) row date (tags_of directory row)) /\
  (forall s, s ∈ submitted (db st) "sections" ->
     exists row k text, row ∈ metadata /\
       text ∈ sections_of directory row /\ 0 <= k < sindex st /\
       s = Etl.section_row k (article_id row) text (tags_of directory row)).
Proof.
  intros Hcsv (metadata' & Hcsv' & Hall)%run_process_all.
  rewrite Hcsv in Hcsv'. injection Hcsv' as <-.
  apply (process_all_ind
           (fun st =>
              0 <= sindex st /\
              (forall a, a ∈ submitted (db st) "articles" ->
                 exists row date, row ∈ metadata /\ Etl.getDate row = Ok date /\
                   a = Etl.article_row (article_id row) row date
                         (tags_of directory row)) /\
              (forall s, s ∈ submitted (db st) "sections" ->
                 exists row k text, row ∈ metadata /\
                   text ∈ sections_of directory row /\ 0 <= k < sindex st /\
                   s = Etl.section_row k (article_id row) text
                         (tags_of directory row)))
           directory metadata)
    with (st := mkState (Etl.init output) 0 0 ∅) in Hall; [tauto| |].
  - intros s s' row Hrow (Hk & Ha & Hs)
      [[_ ->]|(uid & rest & date & Hids & Hdate & ->)]%process_cases; [done|].
    apply getIds_article_id in Hids as ->.
    rewrite document_sindex. split; [lia|]. split.
    + intros a. rewrite document_submitted_articles.
      intros [Hin| ->%list_elem_of_singleton]%elem_of_app; [by apply Ha|].
      by exists row, date.
    + intros x. rewrite document_submitted_sections.
      intros [Hin|Hin]%elem_of_app.
      * destruct (Hs x Hin) as (r & k & text & ? & ? & ? & ?).
        exists r, k, text. repeat split; try done; lia.
      * apply section_rows_elem in Hin as (k & text & -> & ? & ?).
        exists row, k, text. repeat split; try done; lia.
  - split; [done|]. split; by intros ? ?%elem_of_nil.
Qed.

(** X5. Every row of the articles table after a run is the article row of
    a row of the metadata table: its Id is the first id of the sha field,
    or the hash of the title when the field is empty, its other columns are
    the fields of that row, its parsed date and its tags.  The store holds
    no article the run did not derive from the table. *)
Theorem run_stored_articles_come_from_metadata (directory : string)
    (output : option string) (st : state) (metadata : list Row)
    (a : list value) :
  csv_rows (Path.join directory ["metadata.csv"]) = Some metadata ->
  Etl.run directory output = Ok st ->
  a ∈ stored (db st) "articles" ->
  exists row date,
    row ∈ metadata /\ Etl.getDate row = Ok date /\
    a = [VStr (article_id row); VStr (source_x row); opt_date date;
         VStr (journal row); VStr (authors row); VStr (title row);
         opt_str (Etl.getTags (title row :: Etl.read directory row));
         opt_str (Etl.getReference row)].
Proof.
  intros Hcsv Hrun Ha.
  destruct (run_counters _ _ _ Hrun) as (_ & Hsub & _).
  apply (proj1 (run_submitted_provenance _ _ _ _ Hcsv Hrun)).
  by eapply elem_of_sublist.
Qed.

(** X6. Every row of the sections table after a run belongs to a row of
    the metadata table: its Article is the id of that row's document, its
    Text is the title or one of the fragments read from the body files, its
    Tags are the tags of the document, and its Id is below the final
    counter. *)
Theorem run_stored_sections_come_from_metadata (directory : string)
    (output : option string) (st : state) (metadata : list Row)
    (s : list value) :
  csv_rows (Path.join directory ["metadata.csv"]) = Some metadata ->
  Etl.run directory output = Ok st ->
  s ∈ stored (db st) "sections" ->
  exists row k text,
    row ∈ metadata /\
    (text = title row \/ text ∈ Etl.read directory row) /\
    0 <= k < sindex st /\
    s = [VInt k; VStr (article_id row); VStr text;
         opt_str (Etl.getTags (title row :: Etl.read directory row))].
Proof.
  intros Hcsv Hrun Hs.
  pose proof (run_consistent _ _ _ Hrun) as [_ _ _ Hstored _].
  rewrite Hstored in Hs. apply list_elem_of_filter in Hs as [_ Hs].
  destruct (proj2 (run_submitted_provenance _ _ _ _ Hcsv Hrun) s Hs)
    as (row & k & text & Hrow & Htext & Hk & ->).
  exists row, k, text. split; [done|]. split; [|done].
  unfold sections_of in Htext. by apply elem_of_cons in Htext.
Qed.

(** ** One row, whatever the store does with its article *)

Lemma after_insert_taken (tbls : gmap string table) (name : string)
    (t : table) (columns : list string) (vals : list value) :
  tbls !! name = Some t -> Sqlite.pk_taken t vals = true ->
  after_insert tbls name columns vals = tbls.
Proof.
  intros Ht Hpk. unfold after_insert, Sqlite.insert_into. rewrite Ht.
  destruct (negb (bool_decide (columns = _))); [done|].
  destruct (negb (bool_decide (length vals = _))); [done|].
  destruct (Sqlite.bind_all vals) as [bound|] eqn:Hb; simpl; [|done].
  pose proof (bind_all_Ok _ _ Hb) as ->. by rewrite Hpk.
Qed.

(** X7. The section rows of a document are written whether or not its
    article row was kept: after the loop body the sections table has
    gained the section rows the store can bind, numbered from the counter,
    and the counter has moved by their number, whatever happened to the
    article row. *)
Theorem process_stores_sections_whatever_the_article (directory : string)
    (st st' : state) (row : Row) (uid : string) (rest : list string) :
  consistent st ->
  (Etl.getIds row (ids st)).1 = Some (uid :: rest) ->
  Etl.process directory st row = Ok st' ->
  let tags := Etl.getTags (title row :: Etl.read directory row) in
  let secs := section_rows (sindex st) uid tags
                (title row :: Etl.read directory row) in
  stored (db st') "sections" = stored (db st) "sections" ++ filter binds secs /\
  submitted (db st') "sections" = submitted (db st) "sections" ++ secs /\
  sindex st' = sindex st + 1 + Z.of_nat (length (Etl.read directory row)) /\
  aindex st' = aindex st + 1.
Proof.
  intros Hst Hsome Hp. cbn zeta.
  apply process_cases in Hp as [[Hnone _]|(u & r & date & Hids & _ & ->)].
  { by rewrite Hnone in Hsome. }
  rewrite Hids in Hsome. injection Hsome as <- <-.
  split; [by apply document_stored_sections|].
  split; [apply document_submitted_sections|].
  split; [|done]. rewrite document_sindex. unfold sections_of. simpl length. lia.
Qed.

(** X8. The first article row with an Id wins: when the articles table
    already has a row with the id of the document, the article row of the
    document is refused and the table stays as it is, while the article
    counter still moves and the section rows are still written. *)
Theorem process_keeps_first_article_of_an_id (directory : string)
    (st st' : state) (row : Row) (uid : string) (rest : list string)
    (earlier : list value) :
  consistent st ->
  earlier ∈ stored (db st) "articles" -> earlier !! 0%nat = Some (VStr uid) ->
  (Etl.getIds row (ids st)).1 = Some (uid :: rest) ->
  Etl.process directory st row = Ok st' ->
  stored (db st') "articles" = stored (db st) "articles" /\
  aindex st' = aindex st + 1 /\
  stored (db st') "sections" =
    stored (db st) "sections" ++
    filter binds (section_rows (sindex st) uid
                    (Etl.getTags (title row :: Etl.read directory row))
                    (title row :: Etl.read directory row)).
Proof.
  intros Hst Hin Hid Hsome Hp.
  apply process_cases in Hp as [[Hnone _]|(u & r & date & Hids & _ & ->)].
  { by rewrite Hnone in Hsome. }
  rewrite Hids in Hsome. injection Hsome as <- <-.
  split; [|split; [done|by apply document_stored_sections]].
  destruct Hst as [[t [Ht Hcols]] _ _ _ _]. unfold stored in *.
  rewrite document_articles. rewrite Ht in Hin.
  rewrite (after_insert_taken _ _ t); [done|done|].
  unfold Sqlite.pk_taken. rewrite Hcols. simpl.
  apply existsb_exists. exists earlier.
  split; [by apply list_elem_of_In|]. by apply bool_decide_eq_true.
Qed.

(** ** The section extractor, continued *)

Lemma read_blocks_from (blocks : list json) (sections : list string) :
  Etl.read_blocks blocks sections =
    (sections ++ (Etl.read_blocks blocks []).1, (Etl.read_blocks blocks []).2).
Proof.
  revert sections. induction blocks as [|block rest IH]; intros sections.
  - simpl. by rewrite app_nil_r.
  - cbn [Etl.read_blocks]. destruct (_ ≫= _) as [sentences|e].
    + rewrite (IH (sections ++ sentences)), (IH ([] ++ sentences)). simpl.
      by rewrite app_assoc.
    + simpl. by rewrite app_nil_r.
Qed.

Lemma read_article_from (article : string) (sections : list string) :
  (Etl.read_article article sections).1 =
    sections ++ (Etl.read_article article []).1.
Proof.
  unfold Etl.read_article. destruct (json_file article) as [| |data]; simpl.
  - by rewrite app_nil_r.
  - by rewrite app_nil_r.
  - destruct (_ ≫= _) as [blocks|e]; simpl; [|by rewrite app_nil_r].
    by rewrite read_blocks_from.
Qed.

Lemma read_fold (directory subset : string) (uids : list string)
    (sections : list string) :
  fold_left
    (fun sections uid =>
       (Etl.read_article (Etl.article_path directory subset uid) sections).1)
    uids sections
  = sections ++ concat (file_fragments directory subset <$> uids).
Proof.
  revert sections. induction uids as [|uid uids IH]; intros sections; simpl.
  - by rewrite app_nil_r.
  - rewrite IH, read_article_from. unfold file_fragments at 2.
    by rewrite <- app_assoc.
Qed.

(** X9. The body of a row with several ids is the bodies of its files one
    after the other, in the order of the ids; a file that is missing or is
    not JSON adds nothing and does not stop the files after it. *)
Theorem read_concatenates_the_files_of_the_ids (directory : string) (row : Row) :
  sha row <> "" -> full_text_file row <> "" ->
  Etl.read directory row =
    concat (file_fragments directory (full_text_file row)
              <$> Str.split_semi (sha row)) /\
  (forall uid,
     json_file (Etl.article_path directory (full_text_file row) uid) = NoFile \/
     json_file (Etl.article_path directory (full_text_file row) uid) = BadJson ->
     file_fragments directory (full_text_file row) uid = []).
Proof.
  intros Hsha Hsubset. split.
  - unfold Etl.read.
    destruct (provided_ids_truthy row Hsha) as (uid & rest & -> & ->).
    destruct (full_text_file row) as [|c s] eqn:E; [done|].
    cbn [Etl.truthy_ids Str.truthy andb default].
    apply (read_fold directory (String c s) (uid :: rest) []).
  - intros uid [Hfile|Hfile]; unfold file_fragments, Etl.read_article;
      by rewrite Hfile.
Qed.

(** X10. A row without sha or without subset label has no body: its only
    section is its title, so its tags depend on the title alone.  The hash
    that stands in for the missing sha is never used to look for a file. *)
Theorem read_nothing_without_sha_or_subset (directory : string) (row : Row) :
  sha row = "" \/ full_text_file row = "" ->
  Etl.read directory row = [] /\
  Etl.getTags (title row :: Etl.read directory row) =
    (if Etl.has_keyword (title row) then Some "COVID-19" else None).
Proof.
  intros Hmissing.
  assert (Hread : Etl.read directory row = []).
  { unfold Etl.read, Etl.provided_ids. destruct Hmissing as [-> | ->]; [done|].
    by rewrite andb_false_r. }
  split; [done|]. rewrite Hread. unfold Etl.getTags. simpl.
  by destruct (Etl.has_keyword (title row)).
Qed.

(** ** The row writer, continued *)


Lemma values_from_short (table : schema) (row : list value)
    (columns : list string) (x : nat) :
  (x <= length row < x + length columns)%nat ->
  exists e, Etl.values_from x table row columns = Raise e.
Proof.
  revert x. induction columns as [|column rest IH]; intros x Hlen.
  - simpl in Hlen. lia.
  - simpl. unfold Etl.row_item.
    destruct (row !! x) as [val|] eqn:Hval; [simpl|by eexists].
    destruct (Etl.column_type table column) as [ctype|]; [simpl|by eexists].
    destruct (Etl.convert ctype val) as [v|]; [simpl|by eexists].
    apply lookup_lt_Some in Hval.
    destruct (IH (S x)) as [e ->]; [simpl in Hlen; lia|]. by eexists.
Qed.

Lemma values_from_convert_raises (table : schema) (row : list value)
    (columns : list string) (x j : nat) (name ctype : string) (val : value)
    (e : exn) :
  columns !! j = Some name -> Etl.column_type table name = Ok ctype ->
  row !! (x + j)%nat = Some val -> Etl.convert ctype val = Raise e ->
  exists e', Etl.values_from x table row columns = Raise e'.
Proof.
  revert x j. induction columns as [|column rest IH]; intros x j Hj Hty Hval Hconv.
  - done.
  - simpl. unfold Etl.row_item. destruct j as [|j].
    + injection Hj as ->. rewrite Nat.add_0_r in Hval.
      rewrite Hval. simpl. rewrite Hty. simpl. rewrite Hconv. by eexists.
    + destruct (row !! x) as [val'|]; [simpl|by eexists].
      destruct (Etl.column_type table column) as [ctype'|]; [simpl|by eexists].
      destruct (Etl.convert ctype' val') as [v|]; [simpl|by eexists].
      destruct (IH (S x) j) as [e' ->]; [done|done| |done|by eexists].
      by replace (S x + j)%nat with (x + S j)%nat by lia.
Qed.

(** X12. A row with fewer values than the table has columns is never
    stored, and neither is a row with a value its column cannot convert:
    [values] raises, and [insert] leaves the connection as it was. *)
Theorem insert_drops_rows_that_cannot_be_converted (table : schema)
    (row : list value) :
  (length row < length table)%nat \/
  (NoDup table.*1 /\
   exists i name ctype val e,
     table !! i = Some (name, ctype) /\ row !! i = Some val /\
     Etl.convert ctype val = Raise e) ->
  (exists e, Etl.values table row table.*1 = Raise e) /\
  forall d name, Etl.insert d table name row = d.
Proof.
  intros Hcause.
  assert (Hraise : exists e, Etl.values table row table.*1 = Raise e).
  { destruct Hcause as [Hshort|(Hnodup & i & name & ctype & val & e & Hi & Hval & Hconv)].
    - apply values_from_short. rewrite length_fmap. lia.
    - eapply (values_from_convert_raises table row table.*1 0 i name ctype val e);
        [by rewrite list_lookup_fmap, Hi|by eapply column_type_lookup|done|done]. }
  split; [done|]. intros d name. destruct Hraise as [e He].
  unfold Etl.insert. by rewrite He.
Qed.

Lemma column_type_plain (table : schema) (name : string) :
  Forall plain_column table -> name ∈ table.*1 ->
  exists ctype, Etl.column_type table name = Ok ctype /\
                Str.startswith ctype "INTEGER" = false /\ ctype <> "BOOLEAN".
Proof.
  induction 1 as [|[n c] rest [Hint Hbool] _ IH]; simpl.
  - by intros ?%elem_of_nil.
  - intros Hin. destruct (decide (n = name)) as [->|Hne]; [by exists c|].
    apply IH. by apply elem_of_cons in Hin as [?|?].
Qed.

Lemma values_from_plain (table : schema) (row : list value)
    (columns : list string) (x : nat) :
  Forall plain_column table -> columns ⊆ table.*1 ->
  (x + length columns <= length row)%nat ->
  Etl.values_from x table row columns = Ok (take (length columns) (drop x row)).
Proof.
  intros Hplain. revert x.
  induction columns as [|column rest IH]; intros x Hsub Hlen; [done|].
  simpl in Hlen. simpl Etl.values_from. unfold Etl.row_item.
  destruct (row !! x) as [val|] eqn:Hval.
  2:{ apply lookup_ge_None in Hval. lia. }
  destruct (column_type_plain table column Hplain) as (ctype & -> & Hint & Hbool).
  { apply Hsub. left. }
  simpl. unfold Etl.convert. rewrite Hint, bool_decide_false by done. simpl.
  rewrite IH; [|by intros c Hc; apply Hsub; right|lia]. simpl.
  by rewrite (drop_S _ _ _ Hval).
Qed.

(** X13. For a table without INTEGER and BOOLEAN columns [values] changes
    nothing: it returns the values of the row up to the number of columns,
    as they are, and ignores the values beyond.  The articles table is such
    a table. *)
Theorem values_leaves_plain_columns_alone (table : schema) (row : list value) :
  Forall plain_column table -> (length table <= length row)%nat ->
  Etl.values table row table.*1 = Ok (take (length table) row) /\
  Forall plain_column ARTICLES.
Proof.
  intros Hplain Hlen. split.
  - unfold Etl.values. rewrite values_from_plain; [|done|done|].
    + by rewrite length_fmap, drop_0.
    + rewrite length_fmap. lia.
  - repeat constructor; done.
Qed.

(** ** The tagger, continued *)

Lemma getTags_existsb (sections : list string) :
  Etl.getTags sections =
    if existsb Etl.has_keyword sections then Some "COVID-19" else None.
Proof. apply getTags_fold. Qed.

(** X14. The tag of a document is the tag of any part of its fragments
    that has one: tagging a list is tagging its front and, failing that,
    its back, and the order of the fragments does not matter. *)
Theorem getTags_of_joined_and_reordered_fragments (l1 l2 : list string) :
  Etl.getTags (l1 ++ l2) =
    match Etl.getTags l1 with
    | Some tag => Some tag
    | None => Etl.getTags l2
    end /\
  (forall l, l1 ≡ₚ l -> Etl.getTags l1 = Etl.getTags l).
Proof.
  split.
  - rewrite !getTags_existsb, existsb_app.
    by destruct (existsb Etl.has_keyword l1).
  - intros l Hperm. rewrite !getTags_existsb.
    assert (Hiff : existsb Etl.has_keyword l1 = true <->
                   existsb Etl.has_keyword l = true).
    { rewrite !existsb_exists.
      split; intros (x & Hx & ?); exists x; split; try done;
        apply list_elem_of_In; apply list_elem_of_In in Hx.
      - by rewrite <- Hperm.
      - by rewrite Hperm. }
    destruct (existsb Etl.has_keyword l1), (existsb Etl.has_keyword l);
      try done.
    + discriminate (proj1 Hiff eq_refl).
    + discriminate (proj2 Hiff eq_refl).
Qed.

Lemma lower_char_idemp (c : ascii) :
  Str.lower_char (Str.lower_char c) = Str.lower_char c.
Proof. by destruct c as [[] [] [] [] [] [] [] []]. Qed.

Lemma lower_idemp (s : string) : Str.lower (Str.lower s) = Str.lower s.
Proof.
  induction s as [|c s IH]; [done|]. simpl. by rewrite lower_char_idemp, IH.
Qed.

(** X15. The tag does not depend on the case of the letters: fragments
    that are equal once lowered get the same tag, and so lowering every
    fragment changes nothing. *)
Theorem getTags_ignores_case (l l' : list string) :
  Forall2 (fun a b => Str.lower a = Str.lower b) l l' ->
  Etl.getTags l = Etl.getTags l' /\
  Etl.getTags (Str.lower <$> l) = Etl.getTags l.
Proof.
  assert (Hsame : forall k k',
            Forall2 (fun a b => Str.lower a = Str.lower b) k k' ->
            Etl.getTags k = Etl.getTags k').
  { intros k k' Hk. rewrite !getTags_existsb.
    induction Hk as [|a b k k' Hab _ IH]; [done|]. simpl.
    unfold Etl.has_keyword at 1 3. rewrite Hab.
    destruct (existsb _ Etl.keywords); [done|]. exact IH. }
  intros Hl. split; [by apply Hsame|]. apply Hsame.
  clear. induction l as [|a l IH]; constructor; [apply lower_idemp|done].
Qed.

(** ** The reference link *)

Lemma str_app_inv_head (p a b : string) : p +:+ a = p +:+ b -> a = b.
Proof.
  induction p as [|c p IH]; [done|]. rewrite !str_app_cons. intros [= ?].
  by apply IH.
Qed.

(** X16. A row has a reference exactly when it has a doi; the reference
    is the doi behind the resolver's address, and it determines the doi:
    rows with the same reference have the same doi. *)
Theorem getReference_is_the_doi_link (row : Row) :
  (Etl.getReference row = None <-> doi row = "") /\
  (forall ref, Etl.getReference row = Some ref ->
     ref = "https://doi.org/" +:+ doi row /\
     Str.startswith ref "https://doi.org/" = true) /\
  (forall row', Etl.getReference row = Etl.getReference row' ->
     doi row = doi row').
Proof.
  unfold Etl.getReference. split; [|split].
  - by destruct (doi row).
  - intros ref. destruct (doi row) as [|c d]; [done|]. intros [= <-].
    split; [done|]. apply startswith_spec. by eexists.
  - intros row'. destruct (doi row) as [|c d], (doi row') as [|c' d']; try done.
    intros H. apply (inj Some) in H. by apply str_app_inv_head in H.
Qed.

(** ** The text of the insert statement *)

Lemma drop_last2_cons (c : ascii) (s : string) :
  (2 <= String.length s)%nat ->
  Str.drop_last2 (String c s) = String c (Str.drop_last2 s).
Proof.
  intros Hlen. unfold Str.drop_last2. simpl String.length.
  by replace (S (String.length s) - 2)%nat with (S (String.length s - 2)) by lia.
Qed.

Lemma repeat_mark_length (n : nat) :
  String.length (Str.repeat "?, " n) = (3 * n)%nat.
Proof.
  induction n as [|n IH]; [done|].
  change (Str.repeat "?, " (S n))
    with (String "?" (String "," (String " " (Str.repeat "?, " n)))).
  simpl String.length. rewrite IH. lia.
Qed.

Lemma placeholders_join (n : nat) :
  Str.drop_last2 (Str.repeat "?, " n) = Str.join ", " (replicate n "?").
Proof.
  induction n as [|[|n] IH]; [done|done|].
  pose proof (repeat_mark_length (S n)) as Hlen.
  change (Str.repeat "?, " (S (S n)))
    with (String "?" (String "," (String " " (Str.repeat "?, " (S n))))).
  rewrite !drop_last2_cons by (simpl String.length; lia).
  rewrite IH. reflexivity.
Qed.

Lemma count_marks (n : nat) :
  Str.count_char "?" (Str.join ", " (replicate n "?")) = n.
Proof.
  induction n as [|[|n] IH]; [done|done|].
  change (Str.join ", " (replicate (S (S n)) "?"))
    with (String "?" (String "," (String " "
            (Str.join ", " (replicate (S n) "?"))))).
  cbn [Str.count_char]. rewrite IH.
  by rewrite decide_True, !decide_False.
Qed.

(** X17. The insert statement has one placeholder per column of the
    table, separated by commas, and none for a table without columns; it is
    the number of values [values] returns, so the parameters handed to the
    store always match the placeholders in number. *)
Theorem insert_statement_has_a_placeholder_per_column (table : schema)
    (name : string) :
  Etl.placeholders table.*1 = Str.join ", " (replicate (length table) "?") /\
  Str.count_char "?" (Etl.placeholders table.*1) = length table /\
  (forall row out, Etl.values table row table.*1 = Ok out ->
     length out = Str.count_char "?" (Etl.placeholders table.*1)) /\
  Etl.insert_statement table name =
    "INSERT INTO " +:+ name +:+ " (" +:+ Str.join ", " table.*1
      +:+ ") VALUES (" +:+ Str.join ", " (replicate (length table) "?") +:+ ")".
Proof.
  assert (Hmarks : Etl.placeholders table.*1 =
                   Str.join ", " (replicate (length table) "?")).
  { unfold Etl.placeholders. by rewrite length_fmap, placeholders_join. }
  split; [done|]. split; [by rewrite Hmarks, count_marks|]. split.
  - intros row out Hvalues. rewrite Hmarks, count_marks.
    destruct (values_from_spec _ _ _ _ _ Hvalues) as [Hlen _].
    by rewrite length_fmap in Hlen.
  - unfold Etl.insert_statement. by rewrite Hmarks.
Qed.

(** ** Creating the tables *)



(** ** Body files of another shape *)

Lemma read_blocks_of_strings {A} (f : A -> string) (l : list A)
    (sections : list string) :
  (Etl.read_blocks (map (fun x => JStr (f x)) l) sections).1 = sections.
Proof. by destruct l. Qed.

(** X19. Only a list under [body_text] yields fragments: a body file
    without that key, or with an object, a string, a number or null under
    it, adds nothing to the sections of its row. *)
Theorem read_article_needs_a_list_of_blocks (article : string) (data : json)
    (sections : list string) :
  json_file article = Json data ->
  (forall blocks, Json.getitem data "body_text" <> Ok (JArr blocks)) ->
  (Etl.read_article article sections).1 = sections.
Proof.
  intros Hfile Hshape. unfold Etl.read_article. rewrite Hfile.
  destruct (Json.getitem data "body_text") as [body|e] eqn:Hbody; [|done].
  destruct body as [| | |s|blocks|kv]; simpl; try done.
  - apply (read_blocks_of_strings (fun c => String c EmptyString)).
  - by destruct (Hshape blocks).
  - apply (read_blocks_of_strings fst).
Qed.

(** ** How many documents a run makes *)

Lemma process_document_count (directory : string) (st st' : state) (row : Row) :
  Etl.process directory st row = Ok st' ->
  aindex st' - Z.of_nat (size (ids st')) =
    aindex st - Z.of_nat (size (ids st))
    + (if decide (sha row = "") then 0 else 1).
Proof.
  intros [[Hnone ->]|(uid & rest & date & Hids & _ & Hst')]%process_cases.
  - case_decide as Hsha; [lia|]. by rewrite getIds_provided in Hnone.
  - assert (Ha : aindex st' = aindex st + 1) by by rewrite Hst'.
    rewrite Ha. case_decide as Hsha.
    + rewrite getIds_fallback in Hids by done. case_decide as Hin; [done|].
      assert (Hset : ids st' = {[sha1 (title row)]} ∪ ids st) by congruence.
      rewrite Hset, size_union, size_singleton; [lia|].
      intros h ->%elem_of_singleton. done.
    + rewrite getIds_provided in Hids by done.
      assert (Hset : ids st' = ids st) by congruence. rewrite Hset. lia.
Qed.

(** X20. A run makes one document for every row with a sha and one for
    every distinct title hash among the rows without: the article counter
    is the number of the former plus the size of the set of generated
    ids. *)
Theorem run_makes_one_document_per_sha_row_and_title_hash (directory : string)
    (output : option string) (st : state) (metadata : list Row) :
  csv_rows (Path.join directory ["metadata.csv"]) = Some metadata ->
  Etl.run directory output = Ok st ->
  aindex st =
    Z.of_nat (length (filter (fun r => sha r <> "") metadata))
    + Z.of_nat (size (ids st)).
Proof.
  intros Hcsv (metadata' & Hcsv' & Hall)%run_process_all.
  rewrite Hcsv in Hcsv'. injection Hcsv' as <-.
  assert (Hcount : forall l s s',
            Etl.process_all directory s l = Ok s' ->
            aindex s' - Z.of_nat (size (ids s')) =
              aindex s - Z.of_nat (size (ids s))
              + Z.of_nat (length (filter (fun r => sha r <> "") l))).
  { induction l as [|row l IH]; intros s s'; simpl.
    - intros [= <-]. lia.
    - destruct (Etl.process directory s row) as [s1|] eqn:Hp; [simpl|done].
      intros Hrest. rewrite (IH _ _ Hrest), (process_document_count _ _ _ _ Hp).
      case_decide as Hsha.
      + rewrite filter_cons_False; [lia|]. by intros Hne.
      + rewrite filter_cons_True by done. simpl length. lia. }
  specialize (Hcount _ _ _ Hall). cbn [aindex ids] in Hcount.
  rewrite size_empty in Hcount. lia.
Qed.

End Properties.

(** * The properties at concrete inputs *)

Lemma C1_one_row_end_to_end_witness :
  exists st date,
    Etl.run (env := env_hello) "/in" None = Ok st /\
    Etl.getDate (env := env_hello) row_hello = Ok date /\
    stored (db st) "articles" = [Etl.article_row "abc" row_hello date None] /\
    column 0 (Etl.article_row "abc" row_hello date None) = VStr "abc" /\
    stored (db st) "sections" =
      [[VInt 0; VStr "abc"; VStr "T"; VNone];
       [VInt 1; VStr "abc"; VStr "Hello world."; VNone]].
Proof.
  apply (C1_one_row_end_to_end (env := env_hello) "/in" None row_hello);
    try reflexivity.
  repeat split.
Defined.

(** C2, as the claim states it, fails: with a body block whose text UTF-8
    cannot carry, the insert of section 1 is refused and the stored ids
    are 0 and 2. *)
Lemma C2_gap_after_refused_insert :
  exists st,
    Etl.run (env := env_unencodable) "/in" None = Ok st /\
    section_ids (db st) = [VInt 0; VInt 2] /\
    ~ contiguous_from 0 (section_ids (db st)).
Proof.
  eexists. split; [reflexivity|]. split; [reflexivity|].
  unfold contiguous_from. vm_compute. discriminate.
Defined.

Lemma C2_section_ids_assigned_in_sequence_witness :
  exists st,
    Etl.run (env := env_unencodable) "/in" None = Ok st /\
    column 0 <$> submitted (db st) "sections" = VInt <$> seqZ 0 (sindex st) /\
    stored (db st) "sections" = filter binds (submitted (db st) "sections") /\
    increasing (section_ids (db st)) /\
    (Forall (fun r => binds r = true) (submitted (db st) "sections") ->
     contiguous_from 0 (section_ids (db st))).
Proof.
  eexists. split; [reflexivity|].
  apply (C2_section_ids_assigned_in_sequence (env := env_unencodable) "/in" None).
  reflexivity.
Defined.

Lemma C3_later_duplicate_title_is_skipped_witness :
  sha row_first = "" /\ sha row_second = "" /\
  title row_first = title row_second /\
  (exists st1,
     Etl.process_all (env := empty_env) "/in" initial_state
       ([] ++ row_first :: [row_hello]) = Ok st1 /\
     Etl.process (env := empty_env) "/in" st1 row_second = Ok st1) /\
  (forall after,
     Etl.process_all (env := empty_env) "/in" initial_state
       ([] ++ row_first :: [row_hello] ++ row_second :: after) =
     Etl.process_all (env := empty_env) "/in" initial_state
       ([] ++ row_first :: [row_hello] ++ after)).
Proof.
  split; [reflexivity|]. split; [reflexivity|]. split; [reflexivity|].
  destruct (C3_later_duplicate_title_is_skipped (env := empty_env) "/in"
              initial_state [] [row_hello] row_first row_second
              eq_refl eq_refl eq_refl) as (H1 & H2 & _).
  split; [exact H1 | exact H2].
Defined.

Lemma C5_date_parser_witness :
  Etl.getDate (env := empty_env) row_undated = Ok None /\
  Etl.getDate (env := empty_env) row_2020 = Ok (Some (mkDate 2020 1 1 0 0 0)) /\
  Etl.getDate (env := empty_env) row_not_a_date = Ok None.
Proof.
  split; [|split].
  - destruct (C5_date_parser (env := empty_env) row_undated) as (H & _).
    apply H. reflexivity.
  - destruct (C5_date_parser (env := empty_env) row_2020)
      as (_ & _ & _ & _ & _ & H & _).
    apply H; reflexivity.
  - destruct (C5_date_parser (env := empty_env) row_not_a_date)
      as (_ & _ & _ & _ & _ & _ & H).
    apply H; [reflexivity|]. exists ParserError. reflexivity.
Defined.

Lemma C6_article_id_is_first_explicit_id_witness :
  sha row_hello <> "" /\
  exists uid rest date st',
    let a := Etl.article_row uid row_hello date
               (Etl.getTags
                  (title row_hello :: Etl.read (env := env_hello) "/in" row_hello)) in
    Str.split_semi (sha row_hello) = uid :: rest /\
    Str.join_semi (uid :: rest) = sha row_hello /\
    Str.contains "; " uid = false /\
    Etl.getIds (env := env_hello) row_hello (ids initial_state) =
      (Some (uid :: rest), ids initial_state) /\
    Etl.process (env := env_hello) "/in" initial_state row_hello = Ok st' /\
    submitted (db st') "articles" = submitted (db initial_state) "articles" ++ [a] /\
    column 0 a = VStr uid /\
    (stored (db st') "articles" = stored (db initial_state) "articles" \/
     stored (db st') "articles" = stored (db initial_state) "articles" ++ [a]) /\
    (forall t, tables (db initial_state) !! "articles" = Some t ->
       columns_of t = ARTICLES -> binds a = true ->
       (forall r, r ∈ rows t -> column 0 r <> VStr uid) ->
       stored (db st') "articles" = stored (db initial_state) "articles" ++ [a]).
Proof.
  split; [discriminate|].
  apply (C6_article_id_is_first_explicit_id (env := env_hello) "/in"
           initial_state row_hello).
  discriminate.
Defined.

Lemma C7_boilerplate_blocks_skipped_witness :
  Etl.read_article (env := env_notice) "/in/S/S/abc.json" [] =
    (["Intro."; "End."], Ok ()).
Proof.
  apply (C7_boilerplate_blocks_skipped (env := env_notice) "/in/S/S/abc.json"
           (JObj [("body_text", JArr notice_blocks)]) notice_blocks
           ["Intro."; "The COVID-19 resource centre remains active."; "End."] []).
  - reflexivity.
  - reflexivity.
  - repeat constructor.
Defined.

Lemma C8_values_by_declared_type_witness :
  NoDup (SECTIONS.*1) /\
  Etl.values (env := empty_env) SECTIONS
    [VNone; VStr "abc"; VStr "T"; VNone] SECTIONS.*1 =
    Ok [VInt 0; VStr "abc"; VStr "T"; VNone] /\
  forall (i : nat) name ctype, SECTIONS !! i = Some (name, ctype) ->
    exists val v, [VNone; VStr "abc"; VStr "T"; VNone] !! i = Some val /\
                  [VInt 0; VStr "abc"; VStr "T"; VNone] !! i = Some v /\
                  coerced (env := empty_env) ctype val v.
Proof.
  assert (Hnodup : NoDup (SECTIONS.*1)).
  { apply (bool_decide_unpack _). vm_compute. exact I. }
  split; [exact Hnodup|]. split; [reflexivity|].
  apply (C8_values_by_declared_type (env := empty_env) SECTIONS
           [VNone; VStr "abc"; VStr "T"; VNone]
           [VInt 0; VStr "abc"; VStr "T"; VNone] Hnodup).
  reflexivity.
Defined.

Lemma C9_section_tags_are_document_tags_witness :
  exists st row uid date k before after,
    let s := [VInt 1; VStr "abc"; VStr "Hello world."; VNone] in
    let tags := Etl.getTags
                  (title row :: Etl.read (env := env_hello) "/in" row) in
    let a := Etl.article_row uid row date tags in
    let secs := section_rows k uid tags
                  (title row :: Etl.read (env := env_hello) "/in" row) in
    Etl.run (env := env_hello) "/in" None = Ok st /\
    s ∈ stored (db st) "sections" /\
    row ∈ [row_hello] /\
    executed (db st) = before ++ document_statements a secs ++ after /\
    s ∈ secs /\
    column 3 s = opt_str tags /\
    column 6 a = opt_str tags /\
    column 1 s = column 0 a.
Proof.
  destruct (Etl.run (env := env_hello) "/in" None) as [st|e] eqn:Hrun;
    [|vm_compute in Hrun; discriminate].
  assert (Hs : [VInt 1; VStr "abc"; VStr "Hello world."; VNone]
               ∈ stored (db st) "sections").
  { vm_compute in Hrun. injection Hrun as <-. right. left. }
  destruct (C9_section_tags_are_document_tags (env := env_hello) "/in" None st
              [row_hello] [VInt 1; VStr "abc"; VStr "Hello world."; VNone]
              eq_refl Hrun Hs)
    as (row & uid & date & k & before & after & H).
  exists st, row, uid, date, k, before, after. cbn zeta in *.
  split; [reflexivity|]. split; [exact Hs|]. exact H.
Defined.

(** * The further properties at concrete inputs *)

Lemma run_article_ids_distinct_witness :
  exists st,
    Etl.run (env := env_twice) "/in" None = Ok st /\
    NoDup (column 0 <$> stored (db st) "articles").
Proof.
  eexists. split; [reflexivity|].
  apply (run_article_ids_distinct (env := env_twice) "/in" None). reflexivity.
Defined.

Lemma run_counters_count_submitted_rows_witness :
  exists st,
    Etl.run (env := env_twice) "/in" None = Ok st /\
    aindex st = Z.of_nat (length (submitted (db st) "articles")) /\
    sindex st = Z.of_nat (length (submitted (db st) "sections")) /\
    stored (db st) "articles" `sublist_of` submitted (db st) "articles" /\
    Z.of_nat (length (stored (db st) "articles")) <= aindex st /\
    aindex st <= sindex st.
Proof.
  eexists. split; [reflexivity|].
  apply (run_counters_count_submitted_rows (env := env_twice) "/in" None).
  reflexivity.
Defined.

Lemma run_generated_ids_are_title_hashes_witness :
  exists st,
    Etl.run (env := env_titles) "/in" None = Ok st /\
    forall h, h ∈ ids st <->
      exists r, r ∈ [row_first; row_second; row_hello] /\ sha r = "" /\
                sha1 (Environment := env_titles) (title r) = h.
Proof.
  eexists. split; [reflexivity|].
  apply (run_generated_ids_are_title_hashes (env := env_titles) "/in" None);
    reflexivity.
Defined.

Lemma run_stored_articles_come_from_metadata_witness :
  exists st,
    Etl.run (env := env_hello) "/in" None = Ok st /\
    article_hello ∈ stored (db st) "articles" /\
    exists row date,
      row ∈ [row_hello] /\ Etl.getDate (env := env_hello) row = Ok date /\
      article_hello =
        [VStr (article_id (H := env_hello) row); VStr (source_x row);
         opt_date date; VStr (journal row); VStr (authors row);
         VStr (title row);
         opt_str (Etl.getTags (title row :: Etl.read (env := env_hello) "/in" row));
         opt_str (Etl.getReference row)].
Proof.
  destruct (Etl.run (env := env_hello) "/in" None) as [st|e] eqn:Hrun;
    [|vm_compute in Hrun; discriminate].
  assert (Hin : article_hello ∈ stored (db st) "articles").
  { vm_compute in Hrun. injection Hrun as <-. left. }
  exists st. split; [reflexivity|]. split; [exact Hin|].
  exact (run_stored_articles_come_from_metadata (env := env_hello) "/in" None st
           [row_hello] article_hello eq_refl Hrun Hin).
Defined.

Lemma run_stored_sections_come_from_metadata_witness :
  exists st,
    Etl.run (env := env_hello) "/in" None = Ok st /\
    [VInt 1; VStr "abc"; VStr "Hello world."; VNone] ∈ stored (db st) "sections" /\
    exists row k text,
      row ∈ [row_hello] /\
      (text = title row \/ text ∈ Etl.read (env := env_hello) "/in" row) /\
      0 <= k < sindex st /\
      [VInt 1; VStr "abc"; VStr "Hello world."; VNone] =
        [VInt k; VStr (article_id (H := env_hello) row); VStr text;
         opt_str (Etl.getTags (title row :: Etl.read (env := env_hello) "/in" row))].
Proof.
  destruct (Etl.run (env := env_hello) "/in" None) as [st|e] eqn:Hrun;
    [|vm_compute in Hrun; discriminate].
  assert (Hin : [VInt 1; VStr "abc"; VStr "Hello world."; VNone]
                ∈ stored (db st) "sections").
  { vm_compute in Hrun. injection Hrun as <-. right. left. }
  exists st. split; [reflexivity|]. split; [exact Hin|].
  exact (run_stored_sections_come_from_metadata (env := env_hello) "/in" None st
           [row_hello] _ eq_refl Hrun Hin).
Defined.

Lemma process_stores_sections_whatever_the_article_witness :
  exists st',
    consistent initial_state /\
    (Etl.getIds (env := env_hello) row_hello (ids initial_state)).1
      = Some ["abc"] /\
    Etl.process (env := env_hello) "/in" initial_state row_hello = Ok st' /\
    stored (db st') "sections" =
      stored (db initial_state) "sections" ++
      filter binds (section_rows 0 "abc" None ["T"; "Hello world."]) /\
    sindex st' = 2 /\ aindex st' = 1.
Proof.
  eexists.
  assert (Hst : consistent initial_state) by apply (init_consistent None).
  split; [exact Hst|]. split; [reflexivity|]. split; [reflexivity|].
  destruct (process_stores_sections_whatever_the_article (env := env_hello) "/in"
              initial_state _ row_hello "abc" [] Hst eq_refl eq_refl)
    as (Hsections & _ & Hsindex & Haindex).
  split; [exact Hsections|]. split; [exact Hsindex|exact Haindex].
Defined.

Lemma process_keeps_first_article_of_an_id_witness :
  exists st1 st2,
    Etl.process (env := env_hello) "/in" initial_state row_hello = Ok st1 /\
    consistent st1 /\
    article_hello ∈ stored (db st1) "articles" /\
    Etl.process (env := env_hello) "/in" st1 row_hello = Ok st2 /\
    stored (db st2) "articles" = stored (db st1) "articles" /\
    aindex st2 = aindex st1 + 1.
Proof.
  destruct (Etl.process (env := env_hello) "/in" initial_state row_hello)
    as [st1|e] eqn:H1; [|vm_compute in H1; discriminate].
  destruct (Etl.process (env := env_hello) "/in" st1 row_hello)
    as [st2|e] eqn:H2.
  2:{ destruct (process_total (env := env_hello) "/in" st1 row_hello) as [s Hs].
      rewrite Hs in H2. discriminate. }
  assert (Hst1 : consistent st1).
  { apply (process_consistent (env := env_hello) "/in" initial_state st1 row_hello);
      [apply (init_consistent None)|exact H1]. }
  assert (Hin : article_hello ∈ stored (db st1) "articles").
  { vm_compute in H1. injection H1 as <-. left. }
  assert (Hids : (Etl.getIds (env := env_hello) row_hello (ids st1)).1
                 = Some ["abc"]) by reflexivity.
  exists st1, st2. split; [reflexivity|]. split; [exact Hst1|].
  split; [exact Hin|]. split; [exact H2|].
  destruct (process_keeps_first_article_of_an_id (env := env_hello) "/in"
              st1 st2 row_hello "abc" [] article_hello Hst1 Hin eq_refl Hids H2)
    as (Harticles & Haindex & _).
  split; [exact Harticles|exact Haindex].
Defined.

Lemma read_concatenates_the_files_of_the_ids_witness :
  sha row_two_ids <> "" /\ full_text_file row_two_ids <> "" /\
  Etl.read (env := env_hello) "/in" row_two_ids =
    concat (file_fragments (H := env_hello) "/in" "S" <$> ["missing"; "abc"]) /\
  Etl.read (env := env_hello) "/in" row_two_ids = ["Hello world."].
Proof.
  split; [discriminate|]. split; [discriminate|].
  split; [|reflexivity].
  apply (read_concatenates_the_files_of_the_ids (env := env_hello) "/in"
           row_two_ids); discriminate.
Defined.

Lemma read_nothing_without_sha_or_subset_witness :
  Etl.read (env := env_hello) "/in" row_first = [] /\
  Etl.getTags (title row_first :: Etl.read (env := env_hello) "/in" row_first) =
    (if Etl.has_keyword (title row_first) then Some "COVID-19" else None).
Proof.
  apply (read_nothing_without_sha_or_subset (env := env_hello) "/in" row_first).
  left. reflexivity.
Defined.

Lemma insert_drops_rows_that_cannot_be_converted_witness :
  (exists e, Etl.values (env := empty_env) SECTIONS [VInt 1; VStr "abc"]
               SECTIONS.*1 = Raise e) /\
  (forall d name,
     Etl.insert (env := empty_env) d SECTIONS name [VInt 1; VStr "abc"] = d) /\
  (exists e, Etl.values (env := empty_env) SECTIONS
               [VStr "one"; VStr "abc"; VStr "T"; VNone] SECTIONS.*1 = Raise e).
Proof.
  destruct (insert_drops_rows_that_cannot_be_converted (env := empty_env)
              SECTIONS [VInt 1; VStr "abc"]) as [Hraise Hsame].
  { left. simpl. lia. }
  split; [exact Hraise|]. split; [exact Hsame|].
  apply (insert_drops_rows_that_cannot_be_converted (env := empty_env)
           SECTIONS [VStr "one"; VStr "abc"; VStr "T"; VNone]).
  right. split.
  - apply (bool_decide_unpack _). vm_compute. exact I.
  - exists 0%nat, "Id", "INTEGER PRIMARY KEY", (VStr "one"), ValueError.
    repeat split.
Defined.

Lemma values_leaves_plain_columns_alone_witness :
  Etl.values (env := empty_env) ARTICLES nine_values ARTICLES.*1 =
    Ok (take 8 nine_values).
Proof.
  apply (values_leaves_plain_columns_alone (env := empty_env) ARTICLES nine_values).
  - repeat constructor; done.
  - simpl. lia.
Defined.

Lemma getTags_ignores_case_witness :
  Etl.getTags ["A CoViD-19 Report"] = Etl.getTags ["a covid-19 report"].
Proof.
  apply (getTags_ignores_case ["A CoViD-19 Report"] ["a covid-19 report"]).
  repeat constructor.
Defined.

Lemma read_article_needs_a_list_of_blocks_witness :
  (Etl.read_article (env := env_without_list) "/in/S/S/abc.json" ["T"]).1 = ["T"].
Proof.
  apply (read_article_needs_a_list_of_blocks (env := env_without_list)
           "/in/S/S/abc.json" body_without_list ["T"]).
  - reflexivity.
  - intros blocks. discriminate.
Defined.

Lemma run_makes_one_document_per_sha_row_and_title_hash_witness :
  exists st,
    Etl.run (env := env_titles) "/in" None = Ok st /\
    aindex st =
      Z.of_nat (length (filter (fun r => sha r <> "")
                          [row_first; row_second; row_hello]))
      + Z.of_nat (size (ids st)).
Proof.
  eexists. split; [reflexivity|].
  apply (run_makes_one_document_per_sha_row_and_title_hash (env := env_titles)
           "/in" None); reflexivity.
Defined.

